(** * WordGameFHE: a shallow embedding of [contracts/WordGameFHE.sol]

    The contract is embedded as a sequential state machine over its storage.
    Every public function is a computation in a small state-and-revert monad
    that follows the Solidity body statement by statement; a transaction
    either commits the storage left by the body or, on revert, keeps the
    storage it started from.

    The FHE library ([@fhevm/solidity/lib/FHE.sol]) is an external dependency
    of the contract: its operations are taken as an interface ([FHELib]). *)

From stdpp Require Import gmap strings list fin_maps sorting.
From Stdlib Require Import NArith.
From Stdlib.Strings Require Import Byte.

Local Open Scope N_scope.

(** ** Machine types *)

Abbreviation uint256 := N (only parsing).
Abbreviation address := N (only parsing).
Abbreviation bytes32 := N (only parsing).
Abbreviation bytes := (list byte) (only parsing).

(** Largest value of a [uint256]; Solidity ^0.8 arithmetic is checked, so
    [x++] on this value panics (code 0x11) instead of wrapping. *)
Definition MAX_UINT256 : N := 2 ^ 256 - 1.

(** [1 days] *)
Definition ONE_DAY : N := 86400.

(** The public functions of the contract, as callback selectors. *)
Inductive Selector :=
| sel_setDailyAnswer
| sel_submitGuess
| sel_evaluateGuess
| sel_handleEvaluationResult
| sel_getPlayerStats
| sel_getDailyWinners
| sel_getCurrentDay.

(** A fixed-size array [T[5]]. *)
Record Array5 (T : Type) := mkArray5 { e0 : T; e1 : T; e2 : T; e3 : T; e4 : T }.
Arguments mkArray5 {T}.
Arguments e0 {T}.
Arguments e1 {T}.
Arguments e2 {T}.
Arguments e3 {T}.
Arguments e4 {T}.

(** [a[i]]; [None] is the out-of-bounds panic (code 0x32). *)
Definition index5 {T} (a : Array5 T) (i : N) : option T :=
  match i with
  | 0 => Some (e0 a)
  | 1 => Some (e1 a)
  | 2 => Some (e2 a)
  | 3 => Some (e3 a)
  | 4 => Some (e4 a)
  | _ => None
  end.

Definition list_of_array5 {T} (a : Array5 T) : list T :=
  [e0 a; e1 a; e2 a; e3 a; e4 a].

(** ** The FHE library interface

    Handles are opaque; the homomorphic operations are functions on handles.
    The decryption oracle keeps state of its own ([FHEState]):
    [FHE_requestDecryption] hands out a request id, [FHE_checkSignatures]
    either accepts an attestation or reverts ([None]). *)
Class FHELib := {
  euint32 : Type;
  ebool : Type;
  euint32_zero : euint32;
  FHE_asEbool : bool → ebool;
  FHE_and : ebool → ebool → ebool;
  FHE_eq : euint32 → euint32 → ebool;
  FHE_toBytes32 : ebool → bytes32;
  FHEState : Type;
  FHE_requestDecryption : list bytes32 → Selector → FHEState → option (uint256 * FHEState);
  FHE_checkSignatures : uint256 → bytes → bytes → FHEState → option FHEState
}.

(** ** Failures and events *)

Inductive Failure :=
| Error (reason : string)        (* require(cond, reason) *)
| Panic (code : N)               (* checked arithmetic, array bounds *)
| DecodeError                    (* abi.decode on malformed data *)
| LibraryRevert.                 (* a revert inside the FHE library *)

Inductive Event :=
| GuessSubmitted (guessId : uint256) (player : address)
| GuessEvaluated (guessId : uint256) (player : address) (isCorrect : bool)
| NewDailyAnswer (day : uint256).

Global Instance Failure_eq_dec : EqDecision Failure.
Proof. solve_decision. Defined.

Global Instance Event_eq_dec : EqDecision Event.
Proof. solve_decision. Defined.

(** [msg.sender] and [block.timestamp] *)
Record Env := mkEnv { msg_sender : address; block_timestamp : uint256 }.

Section Contract.
Context `{FHE : FHELib}.

(** ** Storage *)

Record EncryptedGuess := mkGuess {
  guess_letters : Array5 euint32;
  timestamp : uint256;
  player : address
}.

Record EncryptedAnswer := mkAnswer {
  answer_letters : Array5 euint32;
  day : uint256
}.

Record PlayerStats := mkStats {
  wins : uint256;
  attempts : uint256;
  lastPlayedDay : uint256
}.

Record Storage := mkStorage {
  currentAnswer : EncryptedAnswer;
  guesses : gmap N EncryptedGuess;
  guessCount : uint256;
  playerStats : gmap N PlayerStats;
  dailyWinners : gmap N (list N);
  requestToGuessId : gmap N N;
  fhe : FHEState
}.

(** Zero values: what a mapping returns for a key never written. *)
Definition zero_letters : Array5 euint32 :=
  mkArray5 euint32_zero euint32_zero euint32_zero euint32_zero euint32_zero.
Definition zero_guess : EncryptedGuess := mkGuess zero_letters 0 0.
Definition zero_answer : EncryptedAnswer := mkAnswer zero_letters 0.
Definition zero_stats : PlayerStats := mkStats 0 0 0.

(** Storage of a freshly deployed contract, for a given oracle state. *)
Definition initial (f : FHEState) : Storage :=
  mkStorage zero_answer ∅ 0 ∅ ∅ ∅ f.

(** Mapping reads: [m[k]]. *)
Definition guesses_at (s : Storage) (id : uint256) : EncryptedGuess :=
  default zero_guess (guesses s !! id).
Definition playerStats_at (s : Storage) (a : address) : PlayerStats :=
  default zero_stats (playerStats s !! a).
Definition dailyWinners_at (s : Storage) (d : uint256) : list N :=
  default [] (dailyWinners s !! d).
Definition requestToGuessId_at (s : Storage) (r : uint256) : uint256 :=
  default 0 (requestToGuessId s !! r).

(** Storage writes. *)
Definition set_currentAnswer (a : EncryptedAnswer) (s : Storage) : Storage :=
  mkStorage a (guesses s) (guessCount s) (playerStats s) (dailyWinners s)
            (requestToGuessId s) (fhe s).
Definition set_guessCount (n : uint256) (s : Storage) : Storage :=
  mkStorage (currentAnswer s) (guesses s) n (playerStats s) (dailyWinners s)
            (requestToGuessId s) (fhe s).
Definition set_guess (id : uint256) (g : EncryptedGuess) (s : Storage) : Storage :=
  mkStorage (currentAnswer s) (<[id := g]> (guesses s)) (guessCount s)
            (playerStats s) (dailyWinners s) (requestToGuessId s) (fhe s).
Definition set_playerStats (a : address) (p : PlayerStats) (s : Storage) : Storage :=
  mkStorage (currentAnswer s) (guesses s) (guessCount s)
            (<[a := p]> (playerStats s)) (dailyWinners s)
            (requestToGuessId s) (fhe s).
Definition set_dailyWinners (d : uint256) (l : list N) (s : Storage) : Storage :=
  mkStorage (currentAnswer s) (guesses s) (guessCount s) (playerStats s)
            (<[d := l]> (dailyWinners s)) (requestToGuessId s) (fhe s).
Definition set_requestToGuessId (r g : uint256) (s : Storage) : Storage :=
  mkStorage (currentAnswer s) (guesses s) (guessCount s) (playerStats s)
            (dailyWinners s) (<[r := g]> (requestToGuessId s)) (fhe s).
Definition set_fhe (f : FHEState) (s : Storage) : Storage :=
  mkStorage (currentAnswer s) (guesses s) (guessCount s) (playerStats s)
            (dailyWinners s) (requestToGuessId s) f.

(** Field updates of a [PlayerStats] slot. *)
Definition with_wins (w : uint256) (p : PlayerStats) : PlayerStats :=
  mkStats w (attempts p) (lastPlayedDay p).
Definition with_attempts (a : uint256) (p : PlayerStats) : PlayerStats :=
  mkStats (wins p) a (lastPlayedDay p).
Definition with_lastPlayedDay (d : uint256) (p : PlayerStats) : PlayerStats :=
  mkStats (wins p) (attempts p) d.

(** ** The execution monad

    A computation runs on the storage and the log of events emitted so far in
    the call; it returns a value with the new storage and log, or reverts. *)
Inductive Outcome (A : Type) :=
| Ok (a : A) (s : Storage) (log : list Event)
| Revert (f : Failure).
Arguments Ok {A}.
Arguments Revert {A}.

Definition M (A : Type) : Type := Storage → list Event → Outcome A.

Definition ret {A} (a : A) : M A := λ s log, Ok a s log.
Definition bind {A B} (c : M A) (k : A → M B) : M B :=
  λ s log, match c s log with
           | Ok a s' log' => k a s' log'
           | Revert f => Revert f
           end.
Definition revert {A} (f : Failure) : M A := λ _ _, Revert f.
Definition get : M Storage := λ s log, Ok s s log.
Definition modify (f : Storage → Storage) : M unit := λ s log, Ok tt (f s) log.
Definition emit (e : Event) : M unit := λ s log, Ok tt s (log ++ [e]).
Definition require (cond : bool) (reason : string) : M unit :=
  if cond then ret tt else revert (Error reason).

(** Checked [x + 1] on [uint256]. *)
Definition checked_inc (x : uint256) : M uint256 :=
  if x <? MAX_UINT256 then ret (x + 1) else revert (Panic 17).

(** [abi.decode(data, (bool))]: one 32-byte big-endian word that must be 0 or 1. *)
Definition word_of_bytes (l : list byte) : N :=
  foldl (λ acc b, acc * 256 + Byte.to_N b) 0 l.
Definition abi_bool (data : bytes) : option bool :=
  if (length data <? 32)%nat then None
  else match word_of_bytes (take 32 data) with
       | 0 => Some false
       | 1 => Some true
       | _ => None
       end.
Definition abi_decode_bool (data : bytes) : M bool :=
  match abi_bool data with
  | Some b => ret b
  | None => revert DecodeError
  end.

Notation "'do' x <- c ; k" := (bind c (λ x, k))
  (at level 10, x name, c at level 100, k at level 200).
Notation "c ;; k" := (bind c (λ _, k))
  (at level 100, k at level 200, right associativity).

(** ** The contract *)

(** [modifier answerExists] *)
Definition answerExists : M unit :=
  do s <- get;
  require (negb (day (currentAnswer s) =? 0)) "Answer not set".

(** [function setDailyAnswer(euint32[5] memory encryptedLetters) public] *)
Definition setDailyAnswer (encryptedLetters : Array5 euint32) (env : Env) : M unit :=
  modify (set_currentAnswer
            (mkAnswer encryptedLetters (block_timestamp env / ONE_DAY)));;
  do s <- get;
  emit (NewDailyAnswer (day (currentAnswer s))).

(** [function submitGuess(euint32[5] memory encryptedLetters) public answerExists] *)
Definition submitGuess (encryptedLetters : Array5 euint32) (env : Env) : M unit :=
  answerExists;;
  let currentDay := block_timestamp env / ONE_DAY in
  do s <- get;
  require (currentDay =? day (currentAnswer s)) "Not current day";;
  require (lastPlayedDay (playerStats_at s (msg_sender env)) <? currentDay)
          "Already played today";;
  (* guessCount++ *)
  do n <- checked_inc (guessCount s);
  modify (set_guessCount n);;
  (* guesses[guessCount] = EncryptedGuess({...}) *)
  do s <- get;
  modify (set_guess (guessCount s)
            (mkGuess encryptedLetters (block_timestamp env) (msg_sender env)));;
  (* playerStats[msg.sender].lastPlayedDay = currentDay *)
  do s <- get;
  modify (set_playerStats (msg_sender env)
            (with_lastPlayedDay currentDay (playerStats_at s (msg_sender env))));;
  (* playerStats[msg.sender].attempts++ *)
  do s <- get;
  do a <- checked_inc (attempts (playerStats_at s (msg_sender env)));
  modify (set_playerStats (msg_sender env)
            (with_attempts a (playerStats_at s (msg_sender env))));;
  do s <- get;
  emit (GuessSubmitted (guessCount s) (msg_sender env)).

(** The loop of [evaluateGuess]:
    [for (uint i = 0; i < 5; i++) isCorrect = FHE.and(isCorrect, FHE.eq(g[i], a[i]))].
    [fuel] counts the iterations that remain before [i] reaches 5. *)
Fixpoint compare_loop (fuel : nat) (i : N) (g a : Array5 euint32)
    (isCorrect : ebool) : M ebool :=
  match fuel with
  | O => ret isCorrect
  | S fuel' =>
      if i <? 5 then
        match index5 g i, index5 a i with
        | Some gi, Some ai =>
            compare_loop fuel' (i + 1) g a (FHE_and isCorrect (FHE_eq gi ai))
        | _, _ => revert (Panic 50)
        end
      else ret isCorrect
  end.

(** [function evaluateGuess(uint256 guessId) public answerExists] *)
Definition evaluateGuess (guessId : uint256) (env : Env) : M unit :=
  answerExists;;
  do s <- get;
  let guess := guesses_at s guessId in
  require (player guess =? msg_sender env) "Not your guess";;
  require (negb (timestamp guess =? 0)) "Invalid guess";;
  do isCorrect <- compare_loop 5 0 (guess_letters guess)
                    (answer_letters (currentAnswer s)) (FHE_asEbool true);
  let ciphertexts := [FHE_toBytes32 isCorrect] in
  do s <- get;
  match FHE_requestDecryption ciphertexts sel_handleEvaluationResult (fhe s) with
  | None => revert LibraryRevert
  | Some (reqId, f) =>
      modify (set_fhe f);;
      modify (set_requestToGuessId reqId guessId)
  end.

(** [function handleEvaluationResult(uint256 requestId, bytes memory cleartexts,
    bytes memory proof) public]. [guess] is a storage reference; nothing writes
    to [guesses] in this body, so it is read once. *)
Definition handleEvaluationResult (requestId : uint256) (cleartexts proof : bytes)
    (env : Env) : M unit :=
  do s <- get;
  let guessId := requestToGuessId_at s requestId in
  let guess := guesses_at s guessId in
  match FHE_checkSignatures requestId cleartexts proof (fhe s) with
  | None => revert LibraryRevert
  | Some f =>
      modify (set_fhe f);;
      do isCorrect <- abi_decode_bool cleartexts;
      (if isCorrect : bool then
         (* playerStats[guess.player].wins++ *)
         do s <- get;
         do w <- checked_inc (wins (playerStats_at s (player guess)));
         modify (set_playerStats (player guess)
                   (with_wins w (playerStats_at s (player guess))));;
         (* dailyWinners[currentAnswer.day].push(guess.player) *)
         do s <- get;
         modify (set_dailyWinners (day (currentAnswer s))
                   (dailyWinners_at s (day (currentAnswer s)) ++ [player guess]))
       else ret tt);;
      emit (GuessEvaluated guessId (player guess) isCorrect)
  end.

(** The view functions. *)
Definition getPlayerStats (s : Storage) (p : address) : uint256 * uint256 :=
  (wins (playerStats_at s p), attempts (playerStats_at s p)).
Definition getDailyWinners (s : Storage) (d : uint256) : list N :=
  dailyWinners_at s d.
Definition getCurrentDay (s : Storage) : uint256 := day (currentAnswer s).

(** ** Transactions *)

Inductive Call :=
| SetDailyAnswer (encryptedLetters : Array5 euint32)
| SubmitGuess (encryptedLetters : Array5 euint32)
| EvaluateGuess (guessId : uint256)
| HandleEvaluationResult (requestId : uint256) (cleartexts proof : bytes).

Record Tx := mkTx { tx_env : Env; tx_call : Call }.

Inductive Receipt :=
| Success (logs : list Event)
| Reverted (f : Failure).

Definition dispatch (c : Call) (env : Env) : M unit :=
  match c with
  | SetDailyAnswer l => setDailyAnswer l env
  | SubmitGuess l => submitGuess l env
  | EvaluateGuess g => evaluateGuess g env
  | HandleEvaluationResult r c p => handleEvaluationResult r c p env
  end.

(** A transaction commits the storage the body leaves, or on revert keeps the
    storage it started from and emits nothing. *)
Definition transact (s : Storage) (tx : Tx) : Storage * Receipt :=
  match dispatch (tx_call tx) (tx_env tx) s [] with
  | Ok _ s' log => (s', Success log)
  | Revert f => (s, Reverted f)
  end.

(** A sequence of transactions, applied in order, with their receipts. *)
Fixpoint execute (s : Storage) (txs : list Tx) : Storage * list Receipt :=
  match txs with
  | [] => (s, [])
  | tx :: rest =>
      let '(s1, r) := transact s tx in
      let '(s2, rs) := execute s1 rest in
      (s2, r :: rs)
  end.

End Contract.

Arguments Ok {FHE A}.
Arguments Revert {FHE A}.

(** ** Derived definitions

    Closed forms of what the bodies above leave in storage, and the
    vocabulary of the properties proved below. *)

Section Derived.
Context `{FHE : FHELib}.
Implicit Types (s : Storage) (env : Env) (log : list Event).

(** The storage a successful [submitGuess] commits. *)
Definition submit_commit (encryptedLetters : Array5 euint32) env s : Storage :=
  let currentDay := block_timestamp env / ONE_DAY in
  let p := playerStats_at s (msg_sender env) in
  mkStorage (currentAnswer s)
    (<[guessCount s + 1 :=
         mkGuess encryptedLetters (block_timestamp env) (msg_sender env)]> (guesses s))
    (guessCount s + 1)
    (<[msg_sender env := mkStats (wins p) (attempts p + 1) currentDay]> (playerStats s))
    (dailyWinners s) (requestToGuessId s) (fhe s).

(** The flag in the specification's words: the AND, over the five positions,
    of the equality of guess letter [i] and answer letter [i]. The loop of
    the code is [compare_loop]; the two are compared below. *)
Definition full_match (g a : Array5 euint32) : ebool :=
  foldl (λ acc xy, FHE_and acc (FHE_eq xy.1 xy.2)) (FHE_asEbool true)
        (zip (list_of_array5 g) (list_of_array5 a)).

(** The storage a successful [evaluateGuess] commits. *)
Definition evaluate_commit (guessId reqId : uint256) (f : FHEState) s : Storage :=
  mkStorage (currentAnswer s) (guesses s) (guessCount s) (playerStats s)
    (dailyWinners s) (<[reqId := guessId]> (requestToGuessId s)) f.

(** The storage a resolution with a [true] payload commits. *)
Definition resolve_commit (requestId : uint256) (f : FHEState) s : Storage :=
  let winner := player (guesses_at s (requestToGuessId_at s requestId)) in
  let p := playerStats_at s winner in
  let d := day (currentAnswer s) in
  mkStorage (currentAnswer s) (guesses s) (guessCount s)
    (<[winner := mkStats (wins p + 1) (attempts p) (lastPlayedDay p)]> (playerStats s))
    (<[d := dailyWinners_at s d ++ [winner]]> (dailyWinners s))
    (requestToGuessId s) f.

(** Guess [g] can be evaluated by [a]: an answer is set, the slot is
    occupied and [a] is its player. *)
Definition evaluable s (g : uint256) (a : address) : Prop :=
  day (currentAnswer s) ≠ 0
  ∧ timestamp (guesses_at s g) ≠ 0
  ∧ player (guesses_at s g) = a.

(** [n] rounds on one guess: its player [a] calls [evaluateGuess g], the call
    records the entry [r ↦ g], and request [r] is then resolved with a
    payload reported as [true]. *)
Inductive win_rounds (g : uint256) (a : address) : nat → Storage → Storage → Prop :=
| win_rounds_O s : win_rounds g a 0 s s
| win_rounds_S n s s1 s2 s3 env1 env2 r c p :
    msg_sender env1 = a →
    transact s (mkTx env1 (EvaluateGuess g)) = (s1, Success []) →
    requestToGuessId s1 = <[r := g]> (requestToGuessId s) →
    transact s1 (mkTx env2 (HandleEvaluationResult r c p))
      = (s2, Success [GuessEvaluated g a true]) →
    win_rounds g a n s2 s3 →
    win_rounds g a (S n) s s3.

(** The guess ids announced by [GuessSubmitted] events, in order. *)
Definition submitted_in (r : Receipt) : list N :=
  match r with
  | Success logs =>
      omap (λ e, match e with GuessSubmitted id _ => Some id | _ => None end) logs
  | Reverted _ => []
  end.
Definition submitted_ids (rs : list Receipt) : list N :=
  concat (map submitted_in rs).

(** The guesses of the submissions that succeeded, in order. *)
Definition accepted_guess (tx : Tx) (r : Receipt) : list EncryptedGuess :=
  match tx_call tx, r with
  | SubmitGuess l, Success _ =>
      [mkGuess l (block_timestamp (tx_env tx)) (msg_sender (tx_env tx))]
  | _, _ => []
  end.
Fixpoint accepted_guesses (txs : list Tx) (rs : list Receipt) : list EncryptedGuess :=
  match txs, rs with
  | tx :: txs', r :: rs' => accepted_guess tx r ++ accepted_guesses txs' rs'
  | _, _ => []
  end.

(** [tx] is a [submitGuess] sent by [a]. *)
Definition is_submit_by (a : address) (tx : Tx) : bool :=
  match tx_call tx with
  | SubmitGuess _ => msg_sender (tx_env tx) =? a
  | _ => false
  end.

(** Every stored guess sits at an id between 1 and [guessCount]. *)
Definition ledger_inv s : Prop :=
  ∀ id, is_Some (guesses s !! id) → 1 ≤ id ≤ guessCount s.

(** Player [a] has played period [P], which is the period of the answer. *)
Definition played s (a : address) (P : uint256) : Prop :=
  day (currentAnswer s) = P ∧ lastPlayedDay (playerStats_at s a) = P.

(** The period a transaction falls in. *)
Definition period_of (tx : Tx) : uint256 :=
  block_timestamp (tx_env tx) / ONE_DAY.

(** The periods of the submissions by [a] that succeeded, in order. *)
Definition submitted_period (a : address) (tx : Tx) (r : Receipt) : list N :=
  match r with
  | Success _ => if is_submit_by a tx then [period_of tx] else []
  | Reverted _ => []
  end.
Fixpoint submitted_periods (a : address) (txs : list Tx) (rs : list Receipt) : list N :=
  match txs, rs with
  | tx :: txs', r :: rs' => submitted_period a tx r ++ submitted_periods a txs' rs'
  | _, _ => []
  end.

End Derived.

(** ** Observations on histories

    What can be read off a run of the contract: the events it emitted, the
    answer it holds, and the facts that hold in every state it can reach. *)

Section Observers.
Context `{FHE : FHELib}.
Implicit Types (s : Storage) (env : Env) (log : list Event).

(** All events of a run, in order. *)
Definition logs_of (r : Receipt) : list Event :=
  match r with
  | Success logs => logs
  | Reverted _ => []
  end.
Definition events_of (rs : list Receipt) : list Event :=
  concat (map logs_of rs).

(** [GuessSubmitted(_, a)] and [GuessEvaluated(_, a, true)]. *)
Definition is_submission_of (a : address) (e : Event) : bool :=
  match e with
  | GuessSubmitted _ p => p =? a
  | _ => false
  end.
Definition is_win_of (a : address) (e : Event) : bool :=
  match e with
  | GuessEvaluated _ p true => p =? a
  | _ => false
  end.
Definition count_events (f : Event → bool) (evs : list Event) : N :=
  N.of_nat (length (List.filter f evs)).

(** How often [a] occurs in a winner list, and in all of them together. *)
Definition occurrences (a : address) (l : list N) : nat :=
  length (List.filter (N.eqb a) l).
Definition listed (a : address) (m : gmap N (list N)) : nat :=
  map_fold (λ _ l acc, (occurrences a l + acc)%nat) 0%nat m.

(** The answer after a run, as far as the calls alone determine it: the one
    of the last [setDailyAnswer], or the one held before. *)
Definition answer_after (a0 : EncryptedAnswer) (txs : list Tx) : EncryptedAnswer :=
  foldl (λ a tx, match tx_call tx with
                 | SetDailyAnswer l => mkAnswer l (period_of tx)
                 | _ => a
                 end) a0 txs.

(** Facts about every state the contract reaches from deployment. *)
Record contract_inv s : Prop := mkInv {
  inv_ledger : ∀ id, is_Some (guesses s !! id) ↔ 1 ≤ id ≤ guessCount s;
  inv_stamped : ∀ id g, guesses s !! id = Some g →
                  timestamp g / ONE_DAY ≠ 0
                  ∧ 1 ≤ attempts (playerStats_at s (player g));
  inv_pending : ∀ r g, requestToGuessId s !! r = Some g → is_Some (guesses s !! g);
  inv_winners : ∀ d w, w ∈ dailyWinners_at s d →
                  w = 0 ∨ 1 ≤ attempts (playerStats_at s w);
  inv_wins_played : ∀ a, 1 ≤ wins (playerStats_at s a) →
                      a = 0 ∨ 1 ≤ attempts (playerStats_at s a);
  inv_wins_listed : ∀ a, wins (playerStats_at s a)
                         = N.of_nat (listed a (dailyWinners s))
}.

(** The transitions of the contract, one rule per way a call can end. *)
Inductive step s : Tx → Storage → Receipt → Prop :=
| step_setDailyAnswer env l :
    step s (mkTx env (SetDailyAnswer l))
      (set_currentAnswer (mkAnswer l (block_timestamp env / ONE_DAY)) s)
      (Success [NewDailyAnswer (block_timestamp env / ONE_DAY)])
| step_submitGuess env l :
    day (currentAnswer s) ≠ 0 →
    block_timestamp env / ONE_DAY = day (currentAnswer s) →
    lastPlayedDay (playerStats_at s (msg_sender env)) < block_timestamp env / ONE_DAY →
    guessCount s < MAX_UINT256 →
    attempts (playerStats_at s (msg_sender env)) < MAX_UINT256 →
    step s (mkTx env (SubmitGuess l)) (submit_commit l env s)
      (Success [GuessSubmitted (guessCount s + 1) (msg_sender env)])
| step_evaluateGuess env g r f :
    evaluable s g (msg_sender env) →
    FHE_requestDecryption
      [FHE_toBytes32 (full_match (guess_letters (guesses_at s g))
                        (answer_letters (currentAnswer s)))]
      sel_handleEvaluationResult (fhe s) = Some (r, f) →
    step s (mkTx env (EvaluateGuess g)) (evaluate_commit g r f s) (Success [])
| step_resolve_false env r c p f :
    FHE_checkSignatures r c p (fhe s) = Some f →
    abi_bool c = Some false →
    step s (mkTx env (HandleEvaluationResult r c p)) (set_fhe f s)
      (Success [GuessEvaluated (requestToGuessId_at s r)
                  (player (guesses_at s (requestToGuessId_at s r))) false])
| step_resolve_true env r c p f :
    FHE_checkSignatures r c p (fhe s) = Some f →
    abi_bool c = Some true →
    wins (playerStats_at s (player (guesses_at s (requestToGuessId_at s r))))
      < MAX_UINT256 →
    step s (mkTx env (HandleEvaluationResult r c p)) (resolve_commit r f s)
      (Success [GuessEvaluated (requestToGuessId_at s r)
                  (player (guesses_at s (requestToGuessId_at s r))) true])
| step_reverted tx e :
    step s tx s (Reverted e).

End Observers.

(** ** A cleartext instance of the library

    Handles are the values themselves, the oracle numbers its requests with a
    counter, and an attestation verifies when the proof is the one byte
    [0x01].  It serves to run the contract on concrete inputs. *)
Module Mock.

Definition requestDecryption (cts : list N) (sel : Selector) (counter : N)
    : option (N * N) :=
  Some (counter, counter + 1).

Definition checkSignatures (requestId : N) (cleartexts proof : list byte)
    (counter : N) : option N :=
  match proof with
  | [x01] => Some counter
  | _ => None
  end.

Definition lib : FHELib := {|
  euint32 := N;
  ebool := bool;
  euint32_zero := 0;
  FHE_asEbool := λ b, b;
  FHE_and := andb;
  FHE_eq := N.eqb;
  FHE_toBytes32 := λ b : bool, if b then 1 else 0;
  FHEState := N;
  FHE_requestDecryption := requestDecryption;
  FHE_checkSignatures := checkSignatures
|}.

(** ABI encodings of [true] and [false]. *)
Definition enc_true : list byte := replicate 31 x00 ++ [x01].
Definition enc_false : list byte := replicate 32 x00.
Definition good_proof : list byte := [x01].
Definition bad_proof : list byte := [].

Definition word (a b c d e : N) : Array5 (@euint32 lib) := mkArray5 a b c d e.

(** Day 7 starts at second 604800. *)
Definition alice : N := 10.
Definition bob : N := 11.
Definition at_ (who t : N) (c : @Call lib) : @Tx lib := mkTx (mkEnv who t) c.

Definition scenario_true : list (@Tx lib) :=
  [ at_ 1 604800 (SetDailyAnswer (word 1 2 3 4 5));
    at_ alice 604900 (SubmitGuess (word 1 2 3 4 5));
    at_ alice 604950 (EvaluateGuess 1);
    at_ 2 605000 (HandleEvaluationResult 0 enc_true good_proof) ].

Definition scenario_false : list (@Tx lib) :=
  [ at_ 1 604800 (SetDailyAnswer (word 1 2 3 4 5));
    at_ alice 604900 (SubmitGuess (word 1 2 3 4 6));
    at_ alice 604950 (EvaluateGuess 1);
    at_ 2 605000 (HandleEvaluationResult 0 enc_false good_proof) ].

(** States along [scenario_true]: the answer published; Alice's guess 1
    submitted; request 0 pending for guess 1. *)
Definition s_answer : @Storage lib := (execute (initial (FHE := lib) 0) (take 1 scenario_true)).1.
Definition s_open : @Storage lib := (execute (initial (FHE := lib) 0) (take 2 scenario_true)).1.
Definition s_pending : @Storage lib := (execute (initial (FHE := lib) 0) (take 3 scenario_true)).1.

Definition resolve_true_0 : @Tx lib :=
  at_ 2 605000 (HandleEvaluationResult 0 enc_true good_proof).

End Mock.

(** ** The web client ([frontend/web/src/App.tsx])

    The parts of the client that compute on data: the statistics shown from
    the loaded records, the loading of a player's records and the update of
    the leaderboard on a win.  JavaScript numbers that the client writes as
    integers (timestamps in seconds, scores) are integers here;
    [String.prototype.toLowerCase] is a parameter; [Array.prototype.sort] is
    the stable sort the language prescribes. *)
Module Client.

Local Open Scope Z_scope.

(** [interface WordGameRecord] *)
Record WordGameRecord := mkRecord {
  rec_id : string;
  encryptedGuess : string;
  rec_timestamp : Z;
  rec_player : string;
  rec_day : Z;
  isCorrect : bool
}.

(** The JSON object stored under [game_<key>]. *)
Record RecordData := mkData {
  data_guess : string;
  data_timestamp : Z;
  data_player : string;
  data_day : Z;
  data_isCorrect : bool
}.

(** An entry of the leaderboard: [{player: string, score: number}]. *)
Record Entry := mkEntry { entry_player : string; score : Z }.

(** [l.sort((a, b) => key(b) - key(a))]: descending by [key], elements with
    equal keys in their original order. *)
Fixpoint insert_desc {A} (key : A → Z) (x : A) (l : list A) : list A :=
  match l with
  | [] => [x]
  | y :: l' => if key x <? key y then y :: insert_desc key x l' else x :: y :: l'
  end.
Definition sort_desc {A} (key : A → Z) (l : list A) : list A :=
  foldr (insert_desc key) [] l.

(** The order of a list sorted so: no key below a later one. *)
Definition desc {A} (key : A → Z) (x y : A) : Prop := key y ≤ key x.

Section WithLowerCase.
Variable toLowerCase : string → string.

(** [const wins = records.filter(r => r.isCorrect).length] *)
Definition wins (records : list WordGameRecord) : nat :=
  length (List.filter isCorrect records).

(** [const currentStreak = records.length > 0 && records[0].isCorrect ? 1 : 0] *)
Definition currentStreak (records : list WordGameRecord) : nat :=
  match records with
  | r :: _ => if isCorrect r then 1%nat else 0%nat
  | [] => 0%nat
  end.

(** The loop of [loadRecords] over the keys. Each key comes with what
    loading and parsing its record gave; [None] stands for every way the
    body skips the key (a failed call, empty bytes, unparsable JSON). A
    record is kept when its player is the account, case aside. *)
Definition own_record (account : string) (key : string) (d : RecordData)
    : option WordGameRecord :=
  if decide (toLowerCase (data_player d) = toLowerCase account)
  then Some (mkRecord key (data_guess d) (data_timestamp d) (data_player d)
                      (data_day d) (data_isCorrect d))
  else None.
Definition collect_records (account : string)
    (loaded : list (string * option RecordData)) : list WordGameRecord :=
  omap (λ kd, d ← kd.2; own_record account kd.1 d) loaded.

(** [list.sort((a, b) => b.timestamp - a.timestamp); setRecords(list)] *)
Definition loadRecords (account : string)
    (loaded : list (string * option RecordData)) : list WordGameRecord :=
  sort_desc rec_timestamp (collect_records account loaded).

(** The leaderboard update of [submitGuess] on a correct guess:
    [findIndex] of the account, case aside; [score += 1] at that index, or
    [push({player: account, score: 1})]; then the sort by score. *)
Definition findIndex (account : string) (lb : list Entry) : option (nat * Entry) :=
  list_find (λ item, toLowerCase (entry_player item) = toLowerCase account) lb.
Definition bump (account : string) (lb : list Entry) : list Entry :=
  match findIndex account lb with
  | Some (playerIndex, item) =>
      <[playerIndex := mkEntry (entry_player item) (score item + 1)]> lb
  | None => lb ++ [mkEntry account 1]
  end.
Definition update_leaderboard (account : string) (lb : list Entry) : list Entry :=
  sort_desc score (bump account lb).


End WithLowerCase.

End Client.

(** ** What each function computes *)

Section Runs.
Context `{FHE : FHELib}.
Implicit Types (s : Storage) (env : Env) (log : list Event).

Lemma playerStats_at_set a p s :
  playerStats_at (set_playerStats a p s) a = p.
Proof. unfold playerStats_at, set_playerStats; simpl. by rewrite lookup_insert_eq. Qed.

Lemma playerStats_at_set_ne a b p s :
  a ≠ b → playerStats_at (set_playerStats a p s) b = playerStats_at s b.
Proof.
  intros Hne. unfold playerStats_at, set_playerStats; simpl.
  by rewrite lookup_insert_ne.
Qed.

Lemma submitGuess_run l env s log :
  submitGuess l env s log =
    let currentDay := block_timestamp env / ONE_DAY in
    let p := playerStats_at s (msg_sender env) in
    if day (currentAnswer s) =? 0 then Revert (Error "Answer not set")
    else if negb (currentDay =? day (currentAnswer s)) then Revert (Error "Not current day")
    else if negb (lastPlayedDay p <? currentDay) then Revert (Error "Already played today")
    else if negb (guessCount s <? MAX_UINT256) then Revert (Panic 17)
    else if negb (attempts p <? MAX_UINT256) then Revert (Panic 17)
    else Ok tt (submit_commit l env s)
            (log ++ [GuessSubmitted (guessCount s + 1) (msg_sender env)]).
Proof.
  unfold submitGuess, answerExists, bind, get, require, checked_inc, modify, emit, ret, revert.
  cbn zeta.
  destruct (day (currentAnswer s) =? 0); simpl; [done|].
  destruct (_ =? day (currentAnswer s)); simpl; [|done].
  destruct (lastPlayedDay _ <? _); simpl; [|done].
  destruct (guessCount s <? MAX_UINT256); simpl; [|done].
  rewrite playerStats_at_set. simpl.
  destruct (attempts _ <? MAX_UINT256); simpl; [|done].
  f_equal. unfold submit_commit, set_playerStats, with_attempts, with_lastPlayedDay; simpl.
  by rewrite insert_insert_eq.
Qed.

Lemma setDailyAnswer_run l env s log :
  setDailyAnswer l env s log =
    Ok tt (set_currentAnswer (mkAnswer l (block_timestamp env / ONE_DAY)) s)
       (log ++ [NewDailyAnswer (block_timestamp env / ONE_DAY)]).
Proof. reflexivity. Qed.

Lemma compare_loop_run g a s log :
  compare_loop 5 0 g a (FHE_asEbool true) s log = Ok (full_match g a) s log.
Proof. reflexivity. Qed.

(** More fuel than the five iterations changes nothing: the loop leaves on
    its own condition [i < 5]. *)
Lemma compare_loop_fuel fuel i g a b :
  (5 - N.to_nat i ≤ fuel)%nat →
  compare_loop fuel i g a b = compare_loop (5 - N.to_nat i) i g a b.
Proof.
  revert i b. induction fuel as [|fuel IH]; intros i b Hf.
  - by replace (5 - N.to_nat i)%nat with 0%nat by lia.
  - destruct (N.ltb_spec i 5) as [Hi|Hi].
    + destruct (5 - N.to_nat i)%nat as [|k] eqn:Hk; [lia|].
      simpl. destruct (i <? 5) eqn:E; [|done].
      destruct (index5 g i), (index5 a i); try done.
      rewrite IH by lia. by replace (5 - N.to_nat (i + 1))%nat with k by lia.
    + replace (5 - N.to_nat i)%nat with 0%nat by lia. simpl.
      destruct (N.ltb_spec i 5); [lia|done].
Qed.

Lemma evaluateGuess_run guessId env s log :
  evaluateGuess guessId env s log =
    let guess := guesses_at s guessId in
    if day (currentAnswer s) =? 0 then Revert (Error "Answer not set")
    else if negb (player guess =? msg_sender env) then Revert (Error "Not your guess")
    else if timestamp guess =? 0 then Revert (Error "Invalid guess")
    else match FHE_requestDecryption
                 [FHE_toBytes32 (full_match (guess_letters guess)
                                   (answer_letters (currentAnswer s)))]
                 sel_handleEvaluationResult (fhe s) with
         | None => Revert LibraryRevert
         | Some (reqId, f) => Ok tt (evaluate_commit guessId reqId f s) log
         end.
Proof.
  unfold evaluateGuess, answerExists, bind, get, require, modify, ret, revert.
  cbn zeta.
  destruct (day (currentAnswer s) =? 0); simpl; [done|].
  destruct (player _ =? _); simpl; [|done].
  destruct (timestamp _ =? 0); simpl; [done|].
  destruct (FHE_requestDecryption _ _ _) as [[reqId f]|]; done.
Qed.

Lemma handleEvaluationResult_run requestId cleartexts proof env s log :
  handleEvaluationResult requestId cleartexts proof env s log =
    let guessId := requestToGuessId_at s requestId in
    let winner := player (guesses_at s guessId) in
    match FHE_checkSignatures requestId cleartexts proof (fhe s) with
    | None => Revert LibraryRevert
    | Some f =>
        match abi_bool cleartexts with
        | None => Revert DecodeError
        | Some false =>
            Ok tt (set_fhe f s) (log ++ [GuessEvaluated guessId winner false])
        | Some true =>
            if wins (playerStats_at s winner) <? MAX_UINT256
            then Ok tt (resolve_commit requestId f s)
                    (log ++ [GuessEvaluated guessId winner true])
            else Revert (Panic 17)
        end
    end.
Proof.
  unfold handleEvaluationResult, abi_decode_bool, bind, get, require,
    checked_inc, modify, emit, ret, revert.
  cbn zeta.
  destruct (FHE_checkSignatures _ _ _ _) as [f|]; [|done].
  destruct (abi_bool cleartexts) as [[|]|]; simpl; try done.
  change (playerStats_at (set_fhe f s)) with (playerStats_at s).
  destruct (wins _ <? MAX_UINT256); simpl; done.
Qed.

(** The same at the level of transactions. *)
Lemma transact_submitGuess s env l :
  transact s (mkTx env (SubmitGuess l)) =
    let currentDay := block_timestamp env / ONE_DAY in
    let p := playerStats_at s (msg_sender env) in
    if day (currentAnswer s) =? 0 then (s, Reverted (Error "Answer not set"))
    else if negb (currentDay =? day (currentAnswer s))
      then (s, Reverted (Error "Not current day"))
    else if negb (lastPlayedDay p <? currentDay)
      then (s, Reverted (Error "Already played today"))
    else if negb (guessCount s <? MAX_UINT256) then (s, Reverted (Panic 17))
    else if negb (attempts p <? MAX_UINT256) then (s, Reverted (Panic 17))
    else (submit_commit l env s,
          Success [GuessSubmitted (guessCount s + 1) (msg_sender env)]).
Proof.
  unfold transact; simpl. rewrite submitGuess_run. cbn zeta.
  repeat (match goal with |- context [if ?b then _ else _] => destruct b end;
          simpl; try done).
Qed.

Lemma transact_setDailyAnswer s env l :
  transact s (mkTx env (SetDailyAnswer l)) =
    (set_currentAnswer (mkAnswer l (block_timestamp env / ONE_DAY)) s,
     Success [NewDailyAnswer (block_timestamp env / ONE_DAY)]).
Proof. reflexivity. Qed.

Lemma transact_evaluateGuess s env guessId :
  transact s (mkTx env (EvaluateGuess guessId)) =
    let guess := guesses_at s guessId in
    if day (currentAnswer s) =? 0 then (s, Reverted (Error "Answer not set"))
    else if negb (player guess =? msg_sender env)
      then (s, Reverted (Error "Not your guess"))
    else if timestamp guess =? 0 then (s, Reverted (Error "Invalid guess"))
    else match FHE_requestDecryption
                 [FHE_toBytes32 (full_match (guess_letters guess)
                                   (answer_letters (currentAnswer s)))]
                 sel_handleEvaluationResult (fhe s) with
         | None => (s, Reverted LibraryRevert)
         | Some (reqId, f) => (evaluate_commit guessId reqId f s, Success [])
         end.
Proof.
  unfold transact; simpl. rewrite evaluateGuess_run. cbn zeta.
  repeat (match goal with |- context [if ?b then _ else _] => destruct b end;
          simpl; try done).
  by destruct (FHE_requestDecryption _ _ _) as [[??]|].
Qed.

Lemma transact_handleEvaluationResult s env requestId cleartexts proof :
  transact s (mkTx env (HandleEvaluationResult requestId cleartexts proof)) =
    let guessId := requestToGuessId_at s requestId in
    let winner := player (guesses_at s guessId) in
    match FHE_checkSignatures requestId cleartexts proof (fhe s) with
    | None => (s, Reverted LibraryRevert)
    | Some f =>
        match abi_bool cleartexts with
        | None => (s, Reverted DecodeError)
        | Some false => (set_fhe f s, Success [GuessEvaluated guessId winner false])
        | Some true =>
            if wins (playerStats_at s winner) <? MAX_UINT256
            then (resolve_commit requestId f s,
                  Success [GuessEvaluated guessId winner true])
            else (s, Reverted (Panic 17))
        end
    end.
Proof.
  unfold transact; simpl. rewrite handleEvaluationResult_run. cbn zeta.
  destruct (FHE_checkSignatures _ _ _ _); [|done].
  destruct (abi_bool _) as [[|]|]; try done.
  by destruct (wins _ <? _).
Qed.

(** A reverted transaction leaves the storage as it was. *)
Lemma transact_reverted s tx s' f :
  transact s tx = (s', Reverted f) → s' = s.
Proof.
  unfold transact. destruct (dispatch _ _ _ _); intros [= <-]; done.
Qed.

(** Reading the storage committed by a [true] resolution. *)
Lemma resolve_commit_stats requestId f s :
  let w := player (guesses_at s (requestToGuessId_at s requestId)) in
  playerStats_at (resolve_commit requestId f s) w
    = mkStats (wins (playerStats_at s w) + 1) (attempts (playerStats_at s w))
              (lastPlayedDay (playerStats_at s w)).
Proof.
  cbn zeta. unfold playerStats_at at 1, resolve_commit; simpl.
  by rewrite lookup_insert_eq.
Qed.

Lemma resolve_commit_stats_ne requestId f s b :
  b ≠ player (guesses_at s (requestToGuessId_at s requestId)) →
  playerStats_at (resolve_commit requestId f s) b = playerStats_at s b.
Proof.
  intros Hb. unfold playerStats_at, resolve_commit; simpl.
  by rewrite lookup_insert_ne.
Qed.

Lemma resolve_commit_winners requestId f s :
  let w := player (guesses_at s (requestToGuessId_at s requestId)) in
  let d := day (currentAnswer s) in
  dailyWinners_at (resolve_commit requestId f s) d = dailyWinners_at s d ++ [w].
Proof.
  cbn zeta. unfold dailyWinners_at at 1, resolve_commit; simpl.
  by rewrite lookup_insert_eq.
Qed.

(** A resolution with a verified attestation and a [true] payload. *)
Lemma transact_resolve_true s env requestId cleartexts proof f :
  FHE_checkSignatures requestId cleartexts proof (fhe s) = Some f →
  abi_bool cleartexts = Some true →
  wins (playerStats_at s (player (guesses_at s (requestToGuessId_at s requestId))))
    < MAX_UINT256 →
  transact s (mkTx env (HandleEvaluationResult requestId cleartexts proof)) =
    (resolve_commit requestId f s,
     Success [GuessEvaluated (requestToGuessId_at s requestId)
                (player (guesses_at s (requestToGuessId_at s requestId))) true]).
Proof.
  intros Hsig Hdec Hw. rewrite transact_handleEvaluationResult. cbn zeta.
  rewrite Hsig, Hdec. by apply N.ltb_lt in Hw as ->.
Qed.

(** What a successful [evaluateGuess] transaction must have done. *)
Lemma transact_evaluate_success_inv s env guessId s' logs :
  transact s (mkTx env (EvaluateGuess guessId)) = (s', Success logs) →
  logs = []
  ∧ evaluable s guessId (msg_sender env)
  ∧ ∃ reqId f,
      FHE_requestDecryption
        [FHE_toBytes32 (full_match (guess_letters (guesses_at s guessId))
                          (answer_letters (currentAnswer s)))]
        sel_handleEvaluationResult (fhe s) = Some (reqId, f)
      ∧ s' = evaluate_commit guessId reqId f s.
Proof.
  rewrite transact_evaluateGuess. cbn zeta. unfold evaluable.
  destruct (N.eqb_spec (day (currentAnswer s)) 0); [intros [=]|].
  destruct (N.eqb_spec (player (guesses_at s guessId)) (msg_sender env));
    simpl; [|intros [=]].
  destruct (N.eqb_spec (timestamp (guesses_at s guessId)) 0); [intros [=]|].
  destruct (FHE_requestDecryption _ _ _) as [[reqId f]|]; intros [= <- <-].
  repeat split; try done. by exists reqId, f.
Qed.

(** And the converse: an evaluable guess, a request the oracle takes. *)
Lemma transact_evaluate_ok s env guessId reqId f :
  evaluable s guessId (msg_sender env) →
  FHE_requestDecryption
    [FHE_toBytes32 (full_match (guess_letters (guesses_at s guessId))
                      (answer_letters (currentAnswer s)))]
    sel_handleEvaluationResult (fhe s) = Some (reqId, f) →
  transact s (mkTx env (EvaluateGuess guessId))
    = (evaluate_commit guessId reqId f s, Success []).
Proof.
  intros (Hday & Hts & Hown) Hreq. rewrite transact_evaluateGuess. cbn zeta.
  destruct (N.eqb_spec (day (currentAnswer s)) 0); [done|].
  rewrite Hown, N.eqb_refl. simpl.
  destruct (N.eqb_spec (timestamp (guesses_at s guessId)) 0); [done|].
  by rewrite Hreq.
Qed.

(** What a successful resolution must have done. *)
Lemma transact_resolve_success_inv s env requestId cleartexts proof s' g a b :
  transact s (mkTx env (HandleEvaluationResult requestId cleartexts proof))
    = (s', Success [GuessEvaluated g a b]) →
  g = requestToGuessId_at s requestId
  ∧ a = player (guesses_at s g)
  ∧ abi_bool cleartexts = Some b
  ∧ ∃ f, FHE_checkSignatures requestId cleartexts proof (fhe s) = Some f
         ∧ s' = (if b then resolve_commit requestId f s else set_fhe f s)
         ∧ (b = true → wins (playerStats_at s a) < MAX_UINT256).
Proof.
  rewrite transact_handleEvaluationResult. cbn zeta.
  destruct (FHE_checkSignatures _ _ _ _) as [f|]; [|intros [=]].
  destruct (abi_bool cleartexts) as [[|]|]; [| |intros [=]].
  - destruct (N.ltb_spec
      (wins (playerStats_at s
               (player (guesses_at s (requestToGuessId_at s requestId)))))
      MAX_UINT256); intros [= <- <- <- <-].
    repeat split; try done. by exists f.
  - intros [= <- <- <- <-]. repeat split; try done. by exists f.
Qed.

(** Neither commit disturbs what makes a guess evaluable. *)
Lemma evaluable_evaluate_commit s g a guessId reqId f :
  evaluable (evaluate_commit guessId reqId f s) g a ↔ evaluable s g a.
Proof. done. Qed.

Lemma evaluable_resolve_commit s g a requestId f :
  evaluable (resolve_commit requestId f s) g a ↔ evaluable s g a.
Proof. done. Qed.

(** The effect of [n] evaluate-then-resolve rounds on one guess. *)
Lemma win_rounds_effect g a n s s' :
  win_rounds g a n s s' →
  wins (playerStats_at s' a) = wins (playerStats_at s a) + N.of_nat n
  ∧ dailyWinners_at s' (day (currentAnswer s))
      = dailyWinners_at s (day (currentAnswer s)) ++ replicate n a
  ∧ currentAnswer s' = currentAnswer s
  ∧ guesses s' = guesses s.
Proof.
  induction 1 as [s|n s s1 s2 s3 env1 env2 r c p Ha Hev1 Hmap Hres _ IH].
  - simpl. by rewrite N.add_0_r, app_nil_r.
  - apply transact_evaluate_success_inv in Hev1 as (_ & _ & r' & f' & _ & ->).
    apply transact_resolve_success_inv in Hres as (Hg & Hp & _ & f & _ & -> & _).
    destruct IH as (IHw & IHd & IHa & IHg).
    pose proof (resolve_commit_stats r f (evaluate_commit g r' f' s)) as Hstats.
    pose proof (resolve_commit_winners r f (evaluate_commit g r' f' s)) as Hwin.
    cbn zeta in Hstats, Hwin. rewrite <- Hg, <- Hp in Hstats, Hwin.
    split; [|split; [|split]].
    + rewrite IHw, Hstats. simpl.
      change (playerStats_at (evaluate_commit g r' f' s) a) with (playerStats_at s a).
      lia.
    + change (day (currentAnswer (resolve_commit r f (evaluate_commit g r' f' s))))
        with (day (currentAnswer s)) in IHd.
      change (day (currentAnswer (evaluate_commit g r' f' s)))
        with (day (currentAnswer s)) in Hwin.
      rewrite IHd, Hwin. simpl. by rewrite <- app_assoc.
    + by rewrite IHa.
    + by rewrite IHg.
Qed.

(** With an oracle that takes every request and can attest a [true] result
    for every request, the rounds can actually be played, as many as the
    wins counter has room for. *)
Lemma win_rounds_exist g a n : ∀ s,
  evaluable s g a →
  (∀ cts f, is_Some (FHE_requestDecryption cts sel_handleEvaluationResult f)) →
  (∀ r f, ∃ c p f', abi_bool c = Some true ∧ FHE_checkSignatures r c p f = Some f') →
  wins (playerStats_at s a) + N.of_nat n ≤ MAX_UINT256 →
  ∃ s', win_rounds g a n s s'.
Proof.
  induction n as [|n IH]; intros s Hev Hreq Hsig Hroom.
  - exists s. constructor.
  - destruct (Hreq
        [FHE_toBytes32 (full_match (guess_letters (guesses_at s g))
                          (answer_letters (currentAnswer s)))] (fhe s))
      as [[r f] Hr].
    set (s1 := evaluate_commit g r f s).
    destruct (Hsig r (fhe s1)) as (c & p & f' & Hdec & Hc).
    set (s2 := resolve_commit r f' s1).
    assert (Hmap : requestToGuessId_at s1 r = g).
    { unfold requestToGuessId_at, s1, evaluate_commit; simpl.
      by rewrite lookup_insert_eq. }
    assert (Hown : player (guesses_at s1 g) = a) by apply Hev.
    assert (Hstep1 : transact s (mkTx (mkEnv a 0) (EvaluateGuess g)) = (s1, Success [])).
    { by apply transact_evaluate_ok. }
    assert (Hstep2 : transact s1 (mkTx (mkEnv a 0) (HandleEvaluationResult r c p))
                     = (s2, Success [GuessEvaluated g a true])).
    { rewrite (transact_resolve_true s1 (mkEnv a 0) r c p f' Hc Hdec);
        rewrite Hmap, Hown; [done|].
      change (playerStats_at s1 a) with (playerStats_at s a). lia. }
    assert (Hev2 : evaluable s2 g a) by done.
    assert (Hw2 : wins (playerStats_at s2 a) = wins (playerStats_at s a) + 1).
    { pose proof (resolve_commit_stats r f' s1) as Hst. cbn zeta in Hst.
      rewrite Hmap, Hown in Hst. fold s2 in Hst. by rewrite Hst. }
    destruct (IH s2 Hev2 Hreq Hsig) as [s3 Hrest]; [lia|].
    exists s3.
    by apply (win_rounds_S g a n s s1 s2 s3 (mkEnv a 0) (mkEnv a 0) r c p).
Qed.

(** *** The guess ledger along a run *)

(** One transaction either appends one guess at [guessCount + 1] and
    announces that id, or leaves the ledger alone and announces none. *)
Lemma transact_ledger s tx :
  let s1 := (transact s tx).1 in
  let r := (transact s tx).2 in
  (submitted_in r = [guessCount s + 1]
   ∧ ∃ g, accepted_guess tx r = [g]
          ∧ guessCount s1 = guessCount s + 1
          ∧ guesses s1 = <[guessCount s + 1 := g]> (guesses s))
  ∨ (submitted_in r = [] ∧ accepted_guess tx r = []
     ∧ guessCount s1 = guessCount s ∧ guesses s1 = guesses s).
Proof.
  destruct tx as [env [l|l|g|rq c p]]; cbn zeta.
  - rewrite transact_setDailyAnswer. right. done.
  - rewrite transact_submitGuess. cbn zeta.
    repeat (match goal with |- context [if ?b then _ else _] => destruct b end;
            simpl; [by right|]).
    left. split; [done|]. eexists. done.
  - rewrite transact_evaluateGuess. cbn zeta.
    repeat (match goal with |- context [if ?b then _ else _] => destruct b end;
            simpl; [by right|]).
    destruct (FHE_requestDecryption _ _ _) as [[??]|]; by right.
  - rewrite transact_handleEvaluationResult. cbn zeta.
    destruct (FHE_checkSignatures _ _ _ _); [|by right].
    destruct (abi_bool _) as [[|]|]; [|by right|by right].
    destruct (wins _ <? _); by right.
Qed.

Lemma execute_cons s tx txs :
  execute s (tx :: txs) =
    ((execute (transact s tx).1 txs).1,
     (transact s tx).2 :: (execute (transact s tx).1 txs).2).
Proof.
  simpl. destruct (transact s tx) as [s1 r]. simpl.
  by destruct (execute s1 txs).
Qed.

Lemma execute_ledger txs : ∀ s,
  ledger_inv s →
  let s' := (execute s txs).1 in
  let rs := (execute s txs).2 in
  let acc := accepted_guesses txs rs in
  submitted_ids rs = (λ i, guessCount s + N.of_nat i) <$> seq 1 (length acc)
  ∧ guessCount s' = guessCount s + N.of_nat (length acc)
  ∧ (∀ n g, acc !! n = Some g → guesses s' !! (guessCount s + N.of_nat (S n)) = Some g)
  ∧ (∀ id, id ≤ guessCount s → guesses s' !! id = guesses s !! id)
  ∧ ledger_inv s'.
Proof.
  induction txs as [|tx txs IH]; intros s Hinv; cbn zeta.
  - simpl. rewrite N.add_0_r. repeat split; try done. by apply Hinv. by apply Hinv.
  - rewrite execute_cons. cbn [fst snd accepted_guesses].
    pose proof (transact_ledger s tx) as Hstep. cbn zeta in Hstep.
    set (s1 := (transact s tx).1) in *. set (r := (transact s tx).2) in *.
    unfold submitted_ids. cbn [map concat]. fold (submitted_ids (execute s1 txs).2).
    destruct Hstep as [(Hids & g & Hacc & Hcount & Hguesses)
                      |(Hids & Hacc & Hcount & Hguesses)].
    + assert (Hinv1 : ledger_inv s1).
      { intros id. rewrite Hguesses, Hcount, lookup_insert_is_Some.
        intros [<-|[_ Hin]]; [lia|]. apply Hinv in Hin. lia. }
      destruct (IH s1 Hinv1) as (IHids & IHcount & IHacc & IHold & IHinv).
      rewrite Hids, Hacc, IHids, Hcount. cbn [app length seq].
      split; [|split; [|split; [|split]]]; try done.
      * rewrite fmap_cons. f_equal. rewrite <- (fmap_S_seq 1), <- list_fmap_compose.
        apply list_fmap_ext. intros _ i _. simpl. lia.
      * rewrite IHcount, Hcount. lia.
      * intros [|n] g' Hn.
        -- simpl in Hn. injection Hn as <-.
           rewrite IHold by lia. rewrite Hguesses.
           replace (guessCount s + N.of_nat 1) with (guessCount s + 1) by lia.
           by rewrite lookup_insert_eq.
        -- simpl in Hn. apply IHacc in Hn. rewrite Hcount in Hn.
           by replace (guessCount s + N.of_nat (S (S n)))
             with (guessCount s + 1 + N.of_nat (S n)) by lia.
      * intros id Hid. rewrite IHold by lia. rewrite Hguesses.
        apply lookup_insert_ne. lia.
    + assert (Hinv1 : ledger_inv s1).
      { intros id. rewrite Hguesses, Hcount. apply Hinv. }
      destruct (IH s1 Hinv1) as (IHids & IHcount & IHacc & IHold & IHinv).
      rewrite Hids, Hacc, IHids, Hcount. cbn [app].
      split; [|split; [|split; [|split]]]; try done.
      * by rewrite IHcount, Hcount.
      * intros n g' Hn. apply IHacc in Hn. by rewrite Hcount in Hn.
      * intros id Hid. rewrite IHold by lia. by rewrite Hguesses.
Qed.

(** *** One play per period *)

(** What one transaction does to [a]'s play record and to the counters. *)
Lemma transact_history s tx a :
  let s1 := (transact s tx).1 in
  let r := (transact s tx).2 in
  ((submitted_period a tx r = [period_of tx]
    ∧ lastPlayedDay (playerStats_at s1 a) = period_of tx
    ∧ attempts (playerStats_at s1 a) = attempts (playerStats_at s a) + 1)
   ∨ (submitted_period a tx r = []
      ∧ lastPlayedDay (playerStats_at s1 a) = lastPlayedDay (playerStats_at s a)
      ∧ attempts (playerStats_at s1 a) = attempts (playerStats_at s a)))
  ∧ guessCount s1 ≤ guessCount s + 1.
Proof.
  unfold submitted_period, is_submit_by, period_of.
  destruct tx as [env [l|l|g|rq c p]]; cbn zeta; simpl tx_call; simpl tx_env.
  - rewrite transact_setDailyAnswer. simpl. split; [by right|lia].
  - rewrite transact_submitGuess. cbn zeta.
    repeat (match goal with |- context [if ?b then _ else _ = _] => destruct b end;
            simpl; [split; [by right|lia]|]).
    repeat (match goal with |- context [(if ?b then _ else _).1] => destruct b end;
            simpl; [split; [by right|lia]|]).
    split; [|lia].
    destruct (N.eqb_spec (msg_sender env) a) as [<-|Hne].
    + left. unfold playerStats_at, submit_commit; simpl.
      rewrite lookup_insert_eq. done.
    + right. unfold playerStats_at, submit_commit; simpl.
      rewrite lookup_insert_ne by done. done.
  - rewrite transact_evaluateGuess. cbn zeta.
    repeat (match goal with |- context [(if ?b then _ else _).1] => destruct b end;
            simpl; [split; [by right|lia]|]).
    destruct (FHE_requestDecryption _ _ _) as [[??]|]; simpl; (split; [by right|lia]).
  - rewrite transact_handleEvaluationResult. cbn zeta.
    destruct (FHE_checkSignatures _ _ _ _) as [f|]; [|split; [by right|simpl; lia]].
    destruct (abi_bool _) as [[|]|]; [|split; [by right|simpl; lia]..].
    destruct (wins _ <? _); [|split; [by right|simpl; lia]]. simpl.
    split; [|lia]. right. split; [done|].
    destruct (decide (a = player (guesses_at s (requestToGuessId_at s rq))))
      as [->|Hne].
    + rewrite resolve_commit_stats. done.
    + rewrite resolve_commit_stats_ne by done. done.
Qed.

(** While time stays within periods up to [P] and [a] does not submit
    successfully in [P], [a]'s last played day stays below [P]. *)
Lemma execute_not_played txs : ∀ s a P,
  lastPlayedDay (playerStats_at s a) < P →
  Forall (λ tx, period_of tx ≤ P) txs →
  P ∉ submitted_periods a txs (execute s txs).2 →
  lastPlayedDay (playerStats_at (execute s txs).1 a) < P.
Proof.
  induction txs as [|tx txs IH]; intros s a P Hlt Hall Hnot; [done|].
  rewrite execute_cons in Hnot |- *. cbn [fst snd submitted_periods] in *.
  apply Forall_cons in Hall as [Htx Hall].
  apply not_elem_of_app in Hnot as [Hnot1 Hnot2].
  apply IH; [|done|done].
  destruct (transact_history s tx a) as [[(Hp & Hl & _)|(_ & Hl & _)] _].
  - rewrite Hp in Hnot1. apply not_elem_of_cons in Hnot1 as [Hne _].
    rewrite Hl. lia.
  - by rewrite Hl.
Qed.

(** The counters grow by at most one per transaction. *)
Lemma execute_counters txs : ∀ s a,
  attempts (playerStats_at (execute s txs).1 a)
    ≤ attempts (playerStats_at s a) + N.of_nat (length txs)
  ∧ guessCount (execute s txs).1 ≤ guessCount s + N.of_nat (length txs).
Proof.
  induction txs as [|tx txs IH]; intros s a; [simpl; lia|].
  rewrite execute_cons. cbn [fst snd length].
  destruct (IH (transact s tx).1 a) as [IHa IHc].
  destruct (transact_history s tx a) as [[(_ & _ & Ha)|(_ & _ & Ha)] Hc]; lia.
Qed.

(** Once [a] has played period [P], any transaction that falls in [P] keeps
    it so, leaves [a]'s attempts alone, and, if it is a submission by [a],
    reverts with "Already played today". *)
Lemma transact_played s tx a P :
  P ≠ 0 → played s a P → period_of tx = P →
  let s1 := (transact s tx).1 in
  let r := (transact s tx).2 in
  played s1 a P
  ∧ attempts (playerStats_at s1 a) = attempts (playerStats_at s a)
  ∧ (is_submit_by a tx = true → r = Reverted (Error "Already played today")).
Proof.
  intros HP [Hday Hlast]. unfold period_of, is_submit_by, played.
  destruct tx as [env [l|l|g|rq c p]]; simpl; intros Hper.
  - done.
  - rewrite transact_submitGuess. cbn zeta. rewrite Hper, Hday.
    destruct (N.eqb_spec P 0) as [|_]; [done|]. rewrite N.eqb_refl. simpl.
    destruct (N.eqb_spec (msg_sender env) a) as [->|Hne].
    + rewrite Hlast, N.ltb_irrefl. simpl. done.
    + repeat (match goal with |- context [if ?b then _ else _] => destruct b end;
              simpl; [done|]).
      rewrite Hday. unfold playerStats_at, submit_commit; simpl.
      rewrite lookup_insert_ne by done. done.
  - rewrite transact_evaluateGuess. cbn zeta.
    repeat (match goal with |- context [if ?b then _ else _] => destruct b end;
            simpl; [done|]).
    destruct (FHE_requestDecryption _ _ _) as [[??]|]; done.
  - rewrite transact_handleEvaluationResult. cbn zeta.
    destruct (FHE_checkSignatures _ _ _ _) as [f|]; [|done].
    destruct (abi_bool _) as [[|]|]; [|done|done].
    destruct (wins _ <? _); [|done]. simpl.
    destruct (decide (a = player (guesses_at s (requestToGuessId_at s rq))))
      as [->|Hne].
    + rewrite resolve_commit_stats. simpl. done.
    + rewrite resolve_commit_stats_ne by done. done.
Qed.

Lemma execute_played txs : ∀ s a P,
  P ≠ 0 → played s a P → Forall (λ tx, period_of tx = P) txs →
  let s' := (execute s txs).1 in
  let rs := (execute s txs).2 in
  played s' a P
  ∧ attempts (playerStats_at s' a) = attempts (playerStats_at s a)
  ∧ Forall2 (λ tx r, is_submit_by a tx = true →
                     r = Reverted (Error "Already played today")) txs rs.
Proof.
  induction txs as [|tx txs IH]; intros s a P HP Hpl Hall; cbn zeta.
  - simpl. repeat split; try done; apply Hpl.
  - rewrite execute_cons. cbn [fst snd].
    apply Forall_cons in Hall as [Htx Hall].
    destruct (transact_played s tx a P HP Hpl Htx) as (Hpl1 & Hatt1 & Hr).
    destruct (IH _ a P HP Hpl1 Hall) as (Hpl2 & Hatt2 & Hrs).
    split; [done|]. split; [by rewrite Hatt2|].
    by apply Forall2_cons.
Qed.

(** A first submission in [P] goes through, and then locks [a] out of [P]. *)
Lemma submit_then_locked s env l P :
  let a := msg_sender env in
  day (currentAnswer s) = P → P ≠ 0 →
  block_timestamp env / ONE_DAY = P →
  lastPlayedDay (playerStats_at s a) < P →
  guessCount s < MAX_UINT256 →
  attempts (playerStats_at s a) < MAX_UINT256 →
  let s1 := (transact s (mkTx env (SubmitGuess l))).1 in
  (transact s (mkTx env (SubmitGuess l))).2
    = Success [GuessSubmitted (guessCount s + 1) a]
  ∧ attempts (playerStats_at s1 a) = attempts (playerStats_at s a) + 1
  ∧ ∀ txs, Forall (λ tx, period_of tx = P) txs →
      let s2 := (execute s1 txs).1 in
      let rs := (execute s1 txs).2 in
      attempts (playerStats_at s2 a) = attempts (playerStats_at s1 a)
      ∧ Forall2 (λ tx r, is_submit_by a tx = true →
                         r = Reverted (Error "Already played today")) txs rs.
Proof.
  intros a Hday HP Hper Hlast Hcount Hatt s1.
  assert (Hs1 : transact s (mkTx env (SubmitGuess l))
                = (submit_commit l env s,
                   Success [GuessSubmitted (guessCount s + 1) a])).
  { rewrite transact_submitGuess. cbn zeta. rewrite Hper, Hday.
    destruct (N.eqb_spec P 0) as [|_]; [done|]. rewrite N.eqb_refl. simpl.
    unfold a in *. apply N.ltb_lt in Hlast as ->. apply N.ltb_lt in Hcount as ->.
    apply N.ltb_lt in Hatt as ->. done. }
  unfold s1. rewrite Hs1. cbn [fst snd].
  assert (Hstats : playerStats_at (submit_commit l env s) a
                   = mkStats (wins (playerStats_at s a))
                             (attempts (playerStats_at s a) + 1) P).
  { unfold playerStats_at at 1, submit_commit; simpl.
    rewrite lookup_insert_eq. simpl. by rewrite Hper. }
  split; [done|]. split; [by rewrite Hstats|].
  intros txs Hall.
  assert (Hpl : played (submit_commit l env s) a P).
  { split; [done|]. by rewrite Hstats. }
  destruct (execute_played txs _ a P HP Hpl Hall) as (_ & Hatt2 & Hrs).
  done.
Qed.

End Runs.


(** ** Running the contract

    The two end-to-end scenarios: answer published for day 7, Alice submits
    guess 1, asks for its evaluation, and the oracle resolves request 0. *)

Example abi_bool_true : abi_bool Mock.enc_true = Some true.
Proof. reflexivity. Qed.

Example abi_bool_false : abi_bool Mock.enc_false = Some false.
Proof. reflexivity. Qed.

Example abi_bool_short : abi_bool [x01] = None.
Proof. reflexivity. Qed.

Example abi_bool_not_boolean : abi_bool (replicate 31 x00 ++ [x02]) = None.
Proof. reflexivity. Qed.

Example scenario_true_runs :
  let '(s, rs) := execute (FHE := Mock.lib) (initial (FHE := Mock.lib) 0) Mock.scenario_true in
  rs = [Success [NewDailyAnswer 7]; Success [GuessSubmitted 1 Mock.alice];
        Success []; Success [GuessEvaluated 1 Mock.alice true]]
  ∧ getPlayerStats s Mock.alice = (1, 1)
  ∧ getDailyWinners s 7 = [Mock.alice].
Proof. vm_compute. done. Qed.

Example scenario_false_runs :
  let '(s, rs) := execute (FHE := Mock.lib) (initial (FHE := Mock.lib) 0) Mock.scenario_false in
  rs = [Success [NewDailyAnswer 7]; Success [GuessSubmitted 1 Mock.alice];
        Success []; Success [GuessEvaluated 1 Mock.alice false]]
  ∧ getPlayerStats s Mock.alice = (0, 1)
  ∧ getDailyWinners s 7 = [].
Proof. vm_compute. done. Qed.

(** ** Properties of the contract *)

Section Claims.
Context `{FHE : FHELib}.
Implicit Types (s : Storage) (env : Env) (log : list Event).

(** C8: [setDailyAnswer] has no precondition on the caller. In every state
    and for every sender it succeeds, replaces the active answer by the given
    letters with period [block.timestamp / 1 days], touches nothing else and
    emits [NewDailyAnswer] with that period; the outcome does not depend on
    who calls. *)
Theorem setDailyAnswer_unguarded s env l :
  let d := block_timestamp env / ONE_DAY in
  let s' := (transact s (mkTx env (SetDailyAnswer l))).1 in
  transact s (mkTx env (SetDailyAnswer l)) = (s', Success [NewDailyAnswer d])
  ∧ currentAnswer s' = mkAnswer l d
  ∧ getCurrentDay s' = d
  ∧ guesses s' = guesses s ∧ guessCount s' = guessCount s
  ∧ playerStats s' = playerStats s ∧ dailyWinners s' = dailyWinners s
  ∧ requestToGuessId s' = requestToGuessId s ∧ fhe s' = fhe s
  ∧ ∀ caller, transact s (mkTx (mkEnv caller (block_timestamp env)) (SetDailyAnswer l))
              = transact s (mkTx env (SetDailyAnswer l)).
Proof.
  cbn zeta. rewrite transact_setDailyAnswer. simpl.
  repeat split; done.
Qed.

(** C6: a submission is atomic. Either it succeeds, and then the guess is
    stored under the id [guessCount + 1] that becomes the new [guessCount],
    the sender's [attempts] grows by exactly one, [lastPlayedDay] becomes the
    current day and the one event [GuessSubmitted] is emitted; or it reverts
    and the whole storage is what it was. In every state the contract can
    reach since deployment, the id [guessCount + 1] is one no guess is
    stored under yet. *)
Theorem submitGuess_atomic s env l :
  let a := msg_sender env in
  let s' := (transact s (mkTx env (SubmitGuess l))).1 in
  let r := (transact s (mkTx env (SubmitGuess l))).2 in
  ((r = Success [GuessSubmitted (guessCount s + 1) a]
   ∧ guessCount s' = guessCount s + 1
   ∧ guesses s' = <[guessCount s + 1 := mkGuess l (block_timestamp env) a]> (guesses s)
   ∧ attempts (playerStats_at s' a) = attempts (playerStats_at s a) + 1
   ∧ lastPlayedDay (playerStats_at s' a) = block_timestamp env / ONE_DAY
   ∧ wins (playerStats_at s' a) = wins (playerStats_at s a)
   ∧ (∀ b, b ≠ a → playerStats s' !! b = playerStats s !! b)
   ∧ currentAnswer s' = currentAnswer s ∧ dailyWinners s' = dailyWinners s
   ∧ requestToGuessId s' = requestToGuessId s ∧ fhe s' = fhe s)
   ∨ (∃ f, r = Reverted f ∧ s' = s))
  ∧ (∀ f0 pre, s = (execute (initial f0) pre).1 →
               guesses s !! (guessCount s + 1) = None).
Proof.
  cbn zeta. split.
  - rewrite transact_submitGuess. cbn zeta.
    repeat (match goal with |- context [if ?b then _ else _] => destruct b end;
            simpl; [by right; eexists|]).
    left. unfold playerStats_at, submit_commit; simpl. rewrite lookup_insert_eq; simpl.
    repeat split; try done.
    intros b Hb. by rewrite lookup_insert_ne.
  - intros f0 pre ->.
    assert (Hinv0 : ledger_inv (initial f0)).
    { intros id [g Hg]. unfold initial in Hg; simpl in Hg.
      by rewrite lookup_empty in Hg. }
    destruct (execute_ledger pre (initial f0) Hinv0) as (_ & _ & _ & _ & Hinv).
    cbn zeta in Hinv.
    destruct (guesses _ !! _) as [g|] eqn:Hg; [|done].
    assert (Hsome : is_Some (guesses (execute (initial f0) pre).1
                               !! (guessCount (execute (initial f0) pre).1 + 1)))
      by (by exists g).
    apply Hinv in Hsome. lia.
Qed.

(** C2: a resolution whose attestation does not verify is fail-closed. The
    body reverts at [FHE.checkSignatures], before any write and before the
    [GuessEvaluated] event; the transaction leaves the whole storage as it
    was (wins, winner lists and everything else) and emits nothing. *)
Theorem failed_attestation_mutates_nothing s env requestId cleartexts proof :
  FHE_checkSignatures requestId cleartexts proof (fhe s) = None →
  transact s (mkTx env (HandleEvaluationResult requestId cleartexts proof))
    = (s, Reverted LibraryRevert)
  ∧ ∀ log, handleEvaluationResult requestId cleartexts proof env s log
           = Revert LibraryRevert.
Proof.
  intros Hsig. split.
  - rewrite transact_handleEvaluationResult. cbn zeta. by rewrite Hsig.
  - intros log. rewrite handleEvaluationResult_run. cbn zeta. by rewrite Hsig.
Qed.

(** C9: a successful [evaluateGuess] writes nothing but the pending entry.
    Player statistics (wins, attempts, lastPlayedDay of everyone), every
    winner list, the guesses, the counter and the answer are unchanged; no
    event is emitted; [requestToGuessId] gains the entry from the request id
    the oracle returned to [guessId]. (The oracle's own state, which belongs
    to the library, is the one the request leaves.) *)
Theorem evaluateGuess_frame s env guessId s' logs :
  transact s (mkTx env (EvaluateGuess guessId)) = (s', Success logs) →
  playerStats s' = playerStats s
  ∧ dailyWinners s' = dailyWinners s
  ∧ (∀ p, playerStats_at s' p = playerStats_at s p)
  ∧ (∀ d, getDailyWinners s' d = getDailyWinners s d)
  ∧ guesses s' = guesses s ∧ guessCount s' = guessCount s
  ∧ currentAnswer s' = currentAnswer s
  ∧ logs = []
  ∧ ∃ reqId f,
      FHE_requestDecryption
        [FHE_toBytes32 (full_match (guess_letters (guesses_at s guessId))
                          (answer_letters (currentAnswer s)))]
        sel_handleEvaluationResult (fhe s) = Some (reqId, f)
      ∧ requestToGuessId s' = <[reqId := guessId]> (requestToGuessId s)
      ∧ fhe s' = f.
Proof.
  intros Hrun.
  apply transact_evaluate_success_inv in Hrun as (-> & _ & reqId & f & Hreq & ->).
  repeat split; try done. by exists reqId, f.
Qed.

(** C7 (what the code does): for a guess id under which nothing is stored,
    with an answer set, [evaluateGuess] reverts and writes nothing, but the
    reason is "Not your guess" for every sender other than the zero address;
    "Invalid guess" is reached only when the sender is the zero address,
    because the ownership check runs first against the zero [player] of the
    empty slot. *)
Theorem evaluateGuess_missing_guess s env guessId :
  day (currentAnswer s) ≠ 0 →
  guesses s !! guessId = None →
  transact s (mkTx env (EvaluateGuess guessId)) =
    (s, Reverted (Error (if msg_sender env =? 0
                         then "Invalid guess" else "Not your guess"))).
Proof.
  intros Hday Hnone. rewrite transact_evaluateGuess. cbn zeta.
  unfold guesses_at. rewrite Hnone. simpl.
  destruct (N.eqb_spec (day (currentAnswer s)) 0) as [|_]; [done|].
  by destruct (msg_sender env).
Qed.

(** C4: the flag that [evaluateGuess] computes is
    [and(and(and(and(and(asEbool(true), eq(g0,a0)), eq(g1,a1)), eq(g2,a2)),
    eq(g3,a3)), eq(g4,a4))], the AND over the five positions of the letter
    equalities; the array handed to [FHE.requestDecryption] holds this flag
    and nothing else; and under any decryption that commutes with the
    library's operations the flag decrypts to [true] exactly when all five
    letters agree. *)
Theorem evaluateGuess_flag s env guessId (dec_u : euint32 → N) (dec_b : ebool → bool) :
  day (currentAnswer s) ≠ 0 →
  player (guesses_at s guessId) = msg_sender env →
  timestamp (guesses_at s guessId) ≠ 0 →
  (∀ b, dec_b (FHE_asEbool b) = b) →
  (∀ x y, dec_b (FHE_and x y) = dec_b x && dec_b y) →
  (∀ x y, dec_b (FHE_eq x y) = (dec_u x =? dec_u y)) →
  let g := guess_letters (guesses_at s guessId) in
  let a := answer_letters (currentAnswer s) in
  let flag :=
    FHE_and (FHE_and (FHE_and (FHE_and (FHE_and (FHE_asEbool true)
      (FHE_eq (e0 g) (e0 a))) (FHE_eq (e1 g) (e1 a))) (FHE_eq (e2 g) (e2 a)))
      (FHE_eq (e3 g) (e3 a))) (FHE_eq (e4 g) (e4 a)) in
  (∀ s0 log, compare_loop 5 0 g a (FHE_asEbool true) s0 log = Ok flag s0 log)
  ∧ flag = full_match g a
  ∧ transact s (mkTx env (EvaluateGuess guessId)) =
      match FHE_requestDecryption [FHE_toBytes32 flag]
              sel_handleEvaluationResult (fhe s) with
      | Some (reqId, f) => (evaluate_commit guessId reqId f s, Success [])
      | None => (s, Reverted LibraryRevert)
      end
  ∧ (dec_b flag = true ↔
       dec_u (e0 g) = dec_u (e0 a) ∧ dec_u (e1 g) = dec_u (e1 a)
       ∧ dec_u (e2 g) = dec_u (e2 a) ∧ dec_u (e3 g) = dec_u (e3 a)
       ∧ dec_u (e4 g) = dec_u (e4 a)).
Proof.
  intros Hday Hown Hts Htrue Hand Heq g a flag.
  split; [done|]. split; [done|]. split.
  - rewrite transact_evaluateGuess. cbn zeta.
    destruct (N.eqb_spec (day (currentAnswer s)) 0) as [|_]; [done|].
    rewrite Hown, N.eqb_refl. simpl.
    destruct (N.eqb_spec (timestamp (guesses_at s guessId)) 0) as [|_]; [done|].
    by destruct (FHE_requestDecryption _ _ _) as [[??]|].
  - unfold flag. rewrite !Hand, !Heq, Htrue. simpl.
    rewrite !andb_true_iff, !N.eqb_eq. tauto.
Qed.

(** C1 (as the code has it): resolution is not idempotent. The pending entry
    is never consumed, so two resolutions of the same [requestId], each with
    an attestation that verifies and a payload that decodes to [true], both
    take effect: the submitter's wins grow by two and the submitter is
    appended twice to the winner list of the current period. *)
Theorem resolution_replays s env1 env2 requestId cleartexts proof f1 f2 :
  FHE_checkSignatures requestId cleartexts proof (fhe s) = Some f1 →
  FHE_checkSignatures requestId cleartexts proof f1 = Some f2 →
  abi_bool cleartexts = Some true →
  let g := requestToGuessId_at s requestId in
  let w := player (guesses_at s g) in
  let d := day (currentAnswer s) in
  wins (playerStats_at s w) + 1 < MAX_UINT256 →
  let tx1 := mkTx env1 (HandleEvaluationResult requestId cleartexts proof) in
  let tx2 := mkTx env2 (HandleEvaluationResult requestId cleartexts proof) in
  let s2 := (execute s [tx1; tx2]).1 in
  (execute s [tx1; tx2]).2
    = [Success [GuessEvaluated g w true]; Success [GuessEvaluated g w true]]
  ∧ wins (playerStats_at s2 w) = wins (playerStats_at s w) + 2
  ∧ dailyWinners_at s2 d = dailyWinners_at s d ++ [w; w]
  ∧ requestToGuessId s2 = requestToGuessId s.
Proof.
  intros Hsig1 Hsig2 Hdec g w d Hw tx1 tx2.
  pose proof (resolve_commit_stats requestId f1 s) as Hstats.
  pose proof (resolve_commit_winners requestId f1 s) as Hwin.
  cbn zeta in Hstats, Hwin. fold g in Hstats, Hwin. fold w in Hstats, Hwin.
  fold d in Hwin.
  set (s1 := resolve_commit requestId f1 s) in *.
  assert (Hg1 : requestToGuessId_at s1 requestId = g) by done.
  assert (Hp1 : player (guesses_at s1 g) = w) by done.
  assert (Hd1 : day (currentAnswer s1) = d) by done.
  assert (Hstep1 : transact s tx1 = (s1, Success [GuessEvaluated g w true])).
  { apply transact_resolve_true; try done. fold g; fold w; lia. }
  assert (Hstep2 : transact s1 tx2
                   = (resolve_commit requestId f2 s1, Success [GuessEvaluated g w true])).
  { unfold tx2. rewrite (transact_resolve_true s1 env2 requestId cleartexts proof f2);
      try done.
    rewrite Hg1, Hp1, Hstats. simpl. lia. }
  unfold execute. rewrite Hstep1, Hstep2. simpl.
  pose proof (resolve_commit_stats requestId f2 s1) as Hstats2.
  pose proof (resolve_commit_winners requestId f2 s1) as Hwin2.
  cbn zeta in Hstats2, Hwin2. rewrite Hg1, Hp1 in Hstats2, Hwin2.
  rewrite Hd1 in Hwin2.
  repeat split.
  - rewrite Hstats2, Hstats. simpl. lia.
  - by rewrite Hwin2, Hwin, <- app_assoc.
Qed.

(** C3: nothing limits evaluation to once per guess. In any state where
    guess [g] of player [a] is evaluable:
    - every [evaluateGuess g] sent by [a] whose request the oracle takes
      succeeds, records the entry from the returned request id to [g] (one
      more pending entry when that id was not pending yet) and leaves [g]
      evaluable, so the call can be repeated;
    - every resolution of a request mapped to [g] with a verified attestation
      and a [true] payload adds one to [a]'s wins, appends [a] to the winner
      list of the current period, keeps every pending entry and leaves [g]
      evaluable;
    - hence [n] rounds of evaluate-then-resolve on the one guess add [n] wins
      and [n] winner-list entries, for every [n];
    - and with an oracle that takes every request and can attest [true] for
      every request, [n] such rounds exist for every [n] the wins counter
      has room for. *)
Theorem evaluation_repeats s g a :
  evaluable s g a →
  let d := day (currentAnswer s) in
  (∀ env reqId f,
      msg_sender env = a →
      FHE_requestDecryption
        [FHE_toBytes32 (full_match (guess_letters (guesses_at s g))
                          (answer_letters (currentAnswer s)))]
        sel_handleEvaluationResult (fhe s) = Some (reqId, f) →
      ∃ s', transact s (mkTx env (EvaluateGuess g)) = (s', Success [])
            ∧ requestToGuessId s' = <[reqId := g]> (requestToGuessId s)
            ∧ requestToGuessId_at s' reqId = g
            ∧ (requestToGuessId s !! reqId = None →
               size (requestToGuessId s') = S (size (requestToGuessId s)))
            ∧ evaluable s' g a)
  ∧ (∀ env requestId cleartexts proof f,
      requestToGuessId_at s requestId = g →
      FHE_checkSignatures requestId cleartexts proof (fhe s) = Some f →
      abi_bool cleartexts = Some true →
      wins (playerStats_at s a) < MAX_UINT256 →
      ∃ s', transact s (mkTx env (HandleEvaluationResult requestId cleartexts proof))
              = (s', Success [GuessEvaluated g a true])
            ∧ wins (playerStats_at s' a) = wins (playerStats_at s a) + 1
            ∧ dailyWinners_at s' d = dailyWinners_at s d ++ [a]
            ∧ requestToGuessId s' = requestToGuessId s
            ∧ evaluable s' g a)
  ∧ (∀ n s', win_rounds g a n s s' →
      wins (playerStats_at s' a) = wins (playerStats_at s a) + N.of_nat n
      ∧ dailyWinners_at s' d = dailyWinners_at s d ++ replicate n a
      ∧ evaluable s' g a)
  ∧ ((∀ cts f, is_Some (FHE_requestDecryption cts sel_handleEvaluationResult f)) →
     (∀ r f, ∃ c p f', abi_bool c = Some true
                       ∧ FHE_checkSignatures r c p f = Some f') →
     ∀ n, wins (playerStats_at s a) + N.of_nat n ≤ MAX_UINT256 →
          ∃ s', win_rounds g a n s s').
Proof.
  intros Hev d. split; [|split; [|split]]; [| | |by intros; apply win_rounds_exist].
  - intros env reqId f Ha Hreq. subst a.
    exists (evaluate_commit g reqId f s). split; [by apply transact_evaluate_ok|].
    split; [done|]. split.
    { unfold requestToGuessId_at, evaluate_commit; simpl.
      by rewrite lookup_insert_eq. }
    split; [|done].
    intros Hfresh. unfold evaluate_commit; simpl.
    by apply map_size_insert_None.
  - intros env requestId cleartexts proof f Hg Hsig Hdec Hw.
    destruct Hev as (Hday & Hts & Hown).
    exists (resolve_commit requestId f s).
    pose proof (resolve_commit_stats requestId f s) as Hstats.
    pose proof (resolve_commit_winners requestId f s) as Hwin.
    cbn zeta in Hstats, Hwin. rewrite Hg, Hown in Hstats, Hwin.
    split.
    { rewrite (transact_resolve_true s env requestId cleartexts proof f);
        rewrite ?Hg, ?Hown; done. }
    split; [by rewrite Hstats|]. split; [done|]. split; [done|].
    apply evaluable_resolve_commit. done.
  - intros n s' Hrounds.
    apply win_rounds_effect in Hrounds as (Hw & Hd & Ha & Hg).
    split; [done|]. split; [done|].
    unfold evaluable, guesses_at in *. by rewrite Ha, Hg.
Qed.

(** C10: guess ids are 1-based, consecutive, unique and gap-free. Along any
    sequence of transactions on a freshly deployed contract, the ids announced
    by the successful submissions are 1, 2, ..., k in this order, where k is
    the number of successful submissions and the final [guessCount]; the n-th
    successful submission is stored under id n; no other id holds a guess;
    consecutive ids differ by one and no id occurs twice. *)
Theorem guess_ids_sequential f txs :
  let s := (execute (initial f) txs).1 in
  let rs := (execute (initial f) txs).2 in
  let acc := accepted_guesses txs rs in
  let k := length acc in
  submitted_ids rs = N.of_nat <$> seq 1 k
  ∧ guessCount s = N.of_nat k
  ∧ (∀ n g, acc !! n = Some g → guesses s !! N.of_nat (S n) = Some g)
  ∧ (∀ id, is_Some (guesses s !! id) ↔ 1 ≤ id ≤ N.of_nat k)
  ∧ (∀ i a b, submitted_ids rs !! i = Some a →
              submitted_ids rs !! S i = Some b → b = a + 1)
  ∧ NoDup (submitted_ids rs).
Proof.
  intros s rs acc k.
  assert (Hinv0 : ledger_inv (initial f)).
  { intros id [g Hg]. unfold initial in Hg; simpl in Hg.
    by rewrite lookup_empty in Hg. }
  destruct (execute_ledger txs (initial f) Hinv0) as (Hids & Hcount & Hacc & _ & Hinv).
  change (guessCount (initial f)) with 0 in Hids, Hcount, Hacc.
  change (submitted_ids rs = (λ i, 0 + N.of_nat i) <$> seq 1 k) in Hids.
  change (guessCount s = 0 + N.of_nat k) in Hcount.
  change (∀ n g, acc !! n = Some g → guesses s !! (0 + N.of_nat (S n)) = Some g) in Hacc.
  change (ledger_inv s) in Hinv.
  rewrite N.add_0_l in Hcount.
  assert (Hids' : submitted_ids rs = N.of_nat <$> seq 1 k).
  { rewrite Hids. apply list_fmap_ext. intros _ i _. lia. }
  split; [done|]. split; [done|]. split; [|split; [|split]].
  - intros n g Hn. apply Hacc in Hn. by rewrite N.add_0_l in Hn.
  - intros id. split.
    + intros Hsome. apply Hinv in Hsome. by rewrite Hcount in Hsome.
    + intros [Hlo Hhi].
      assert (Hlt : (N.to_nat id - 1 < k)%nat) by lia.
      destruct (lookup_lt_is_Some_2 acc _ Hlt) as [g Hg].
      exists g. apply Hacc in Hg.
      by replace (0 + N.of_nat (S (N.to_nat id - 1))) with id in Hg by lia.
  - intros i a b. rewrite Hids', !list_lookup_fmap.
    intros Ha Hb.
    destruct (seq 1 k !! i) as [x|] eqn:Hx; [|done].
    destruct (seq 1 k !! S i) as [y|] eqn:Hy; [|done].
    apply lookup_seq in Hx as [-> _]. apply lookup_seq in Hy as [-> _].
    simpl in Ha, Hb. injection Ha as <-. injection Hb as <-. lia.
  - rewrite Hids'. apply NoDup_fmap_2; [|apply NoDup_seq].
    intros x y. lia.
Qed.

(** C5: one submission per participant per period. Take any history of the
    contract since deployment that lies in periods up to [P] and in which the
    participant has made no successful submission in [P], with fewer than
    2^256 - 1 transactions. If an answer is active for [P] (its day is [P],
    not zero), a submission by the participant at a time in [P] succeeds and
    raises the participant's attempts by one. From then on, whatever
    transactions follow at whatever times within [P], every further
    submission by this participant reverts with "Already played today" and
    the attempts counter keeps the value it had after the first submission. *)
Theorem one_submission_per_period f pre env l P :
  let a := msg_sender env in
  let s := (execute (initial f) pre).1 in
  Forall (λ tx, period_of tx ≤ P) pre →
  P ∉ submitted_periods a pre (execute (initial f) pre).2 →
  N.of_nat (length pre) < MAX_UINT256 →
  day (currentAnswer s) = P → P ≠ 0 →
  block_timestamp env / ONE_DAY = P →
  let s1 := (transact s (mkTx env (SubmitGuess l))).1 in
  (transact s (mkTx env (SubmitGuess l))).2
    = Success [GuessSubmitted (guessCount s + 1) a]
  ∧ attempts (playerStats_at s1 a) = attempts (playerStats_at s a) + 1
  ∧ ∀ txs, Forall (λ tx, period_of tx = P) txs →
      let s2 := (execute s1 txs).1 in
      let rs := (execute s1 txs).2 in
      attempts (playerStats_at s2 a) = attempts (playerStats_at s1 a)
      ∧ Forall2 (λ tx r, is_submit_by a tx = true →
                         r = Reverted (Error "Already played today")) txs rs.
Proof.
  intros a s Hpast Hfirst Hlen Hday HP Hper.
  assert (Hlast0 : lastPlayedDay (playerStats_at (initial f) a) < P).
  { change (lastPlayedDay (playerStats_at (initial f) a)) with 0. lia. }
  pose proof (execute_not_played pre (initial f) a P Hlast0 Hpast Hfirst) as Hlast.
  destruct (execute_counters pre (initial f) a) as [Hatt Hcount].
  change (attempts (playerStats_at (initial f) a)) with 0 in Hatt.
  change (guessCount (initial f)) with 0 in Hcount.
  fold s in Hlast, Hatt, Hcount.
  assert (Hc : guessCount s < MAX_UINT256) by lia.
  assert (Ha : attempts (playerStats_at s a) < MAX_UINT256) by lia.
  exact (submit_then_locked s env l P Hday HP Hper Hlast Hc Ha).
Qed.

End Claims.

(** ** The properties on concrete runs *)

(** C1, counterexample: request 0 is pending for Alice's guess; resolving it
    twice, each time with a verifying attestation and the payload [true],
    succeeds twice, takes Alice from 0 wins to 2 and lists her twice among
    the winners of day 7. The side effect is applied more than once. *)
Lemma resolution_not_idempotent :
  let s0 := Mock.s_pending in
  let s1 := (transact s0 Mock.resolve_true_0).1 in
  let s2 := (transact s1 Mock.resolve_true_0).1 in
  (transact s0 Mock.resolve_true_0).2 = Success [GuessEvaluated 1 Mock.alice true]
  ∧ (transact s1 Mock.resolve_true_0).2 = Success [GuessEvaluated 1 Mock.alice true]
  ∧ getPlayerStats s0 Mock.alice = (0, 1)
  ∧ getPlayerStats s2 Mock.alice = (2, 1)
  ∧ getDailyWinners s0 7 = []
  ∧ getDailyWinners s2 7 = [Mock.alice; Mock.alice]
  ∧ ¬ (wins (playerStats_at s2 Mock.alice) ≤ wins (playerStats_at s0 Mock.alice) + 1).
Proof. vm_compute. repeat split; try reflexivity. intros H; apply H; reflexivity. Qed.

(** C1 as amended, on the same run. *)
Lemma resolution_replays_witness :
  let s := Mock.s_pending in
  let s2 := (execute s [Mock.resolve_true_0; Mock.resolve_true_0]).1 in
  (FHE_checkSignatures (FHELib := Mock.lib) 0 Mock.enc_true Mock.good_proof (fhe s) = Some 1
   ∧ abi_bool Mock.enc_true = Some true)
  ∧ wins (playerStats_at s2 Mock.alice) = wins (playerStats_at s Mock.alice) + 2
  ∧ dailyWinners_at s2 7 = dailyWinners_at s 7 ++ [Mock.alice; Mock.alice].
Proof.
  intros s s2.
  assert (Hsig : FHE_checkSignatures (FHELib := Mock.lib) 0 Mock.enc_true
                   Mock.good_proof (fhe s) = Some 1) by reflexivity.
  assert (Hdec : abi_bool Mock.enc_true = Some true) by reflexivity.
  assert (Hw : wins (playerStats_at s
                 (player (guesses_at s (requestToGuessId_at s 0)))) + 1
               < MAX_UINT256) by reflexivity.
  split; [done|].
  destruct (resolution_replays (FHE := Mock.lib) s (mkEnv 2 605000) (mkEnv 2 605000)
              0 Mock.enc_true Mock.good_proof 1 1 Hsig Hsig Hdec Hw)
    as (_ & Hwins & Hlist & _).
  split; [exact Hwins | exact Hlist].
Defined.

(** C2 on a run: request 0 pending, the proof does not verify. *)
Lemma failed_attestation_witness :
  let s := Mock.s_pending in
  let tx := Mock.at_ 2 605000 (HandleEvaluationResult 0 Mock.enc_true Mock.bad_proof) in
  FHE_checkSignatures (FHELib := Mock.lib) 0 Mock.enc_true Mock.bad_proof (fhe s) = None
  ∧ transact s tx = (s, Reverted LibraryRevert).
Proof.
  intros s tx.
  assert (Hsig : FHE_checkSignatures (FHELib := Mock.lib) 0 Mock.enc_true
                   Mock.bad_proof (fhe s) = None) by reflexivity.
  split; [exact Hsig|].
  exact (proj1 (failed_attestation_mutates_nothing (FHE := Mock.lib) s
                  (mkEnv 2 605000) 0 Mock.enc_true Mock.bad_proof Hsig)).
Defined.

(** C9 on a run: Alice asks for the evaluation of her guess 1. *)
Lemma evaluateGuess_frame_witness :
  let s := Mock.s_open in
  let s' := Mock.s_pending in
  let tx := Mock.at_ Mock.alice 604950 (EvaluateGuess 1) in
  transact s tx = (s', Success [])
  ∧ playerStats s' = playerStats s
  ∧ dailyWinners s' = dailyWinners s
  ∧ requestToGuessId s' = <[0 := 1]> (requestToGuessId s).
Proof.
  intros s s' tx.
  assert (Hrun : transact s tx = (s', Success [])) by (vm_compute; reflexivity).
  split; [exact Hrun|].
  destruct (evaluateGuess_frame (FHE := Mock.lib) s (mkEnv Mock.alice 604950) 1
              s' [] Hrun)
    as (Hstats & Hwinners & _ & _ & _ & _ & _ & _ & reqId & f & Hreq & Hpending & _).
  split; [exact Hstats|]. split; [exact Hwinners|].
  injection Hreq as <- _. exact Hpending.
Defined.

(** C7 on a run: Bob asks for the evaluation of guess 7, which does not
    exist. *)
Lemma evaluateGuess_missing_guess_witness :
  let s := Mock.s_open in
  (day (currentAnswer s) ≠ 0 ∧ guesses s !! 7 = None)
  ∧ transact s (Mock.at_ Mock.bob 604950 (EvaluateGuess 7))
    = (s, Reverted (Error "Not your guess")).
Proof.
  intros s.
  assert (Hday : day (currentAnswer s) ≠ 0) by (vm_compute; discriminate).
  assert (Hnone : guesses s !! 7 = None) by (vm_compute; reflexivity).
  split; [split; [exact Hday | exact Hnone]|].
  exact (evaluateGuess_missing_guess (FHE := Mock.lib) s (mkEnv Mock.bob 604950) 7
           Hday Hnone).
Defined.

(** C4 on a run: Alice's guess equals the answer letter by letter. *)
Lemma evaluateGuess_flag_witness :
  let s := Mock.s_open in
  let env := mkEnv Mock.alice 604950 in
  (day (currentAnswer s) ≠ 0
   ∧ player (guesses_at s 1) = msg_sender env
   ∧ timestamp (guesses_at s 1) ≠ 0)
  ∧ transact s (mkTx env (EvaluateGuess 1))
    = (evaluate_commit (FHE := Mock.lib) 1 0 1 s, Success [])
  ∧ full_match (FHE := Mock.lib) (guess_letters (guesses_at s 1))
      (answer_letters (currentAnswer s)) = true.
Proof.
  intros s env.
  assert (Hday : day (currentAnswer s) ≠ 0) by (vm_compute; discriminate).
  assert (Hown : player (guesses_at s 1) = msg_sender env) by (vm_compute; reflexivity).
  assert (Hts : timestamp (guesses_at s 1) ≠ 0) by (vm_compute; discriminate).
  split; [split; [exact Hday | split; [exact Hown | exact Hts]]|].
  destruct (evaluateGuess_flag (FHE := Mock.lib) s env 1 (λ x : N, x) (λ b : bool, b)
              Hday Hown Hts (λ b, eq_refl) (λ x y, eq_refl) (λ x y, eq_refl))
    as (_ & Hfold & Hrun & Hdec).
  split; [exact Hrun|].
  rewrite <- Hfold. apply Hdec. vm_compute. repeat split; reflexivity.
Defined.

(** C5 on a run: Alice submits on day 7 and tries again in the last second
    of day 7. *)
Lemma one_submission_per_period_witness :
  let pre := take 1 Mock.scenario_true in
  let s := (execute (initial (FHE := Mock.lib) 0) pre).1 in
  let env := mkEnv Mock.alice 604900 in
  let l := Mock.word 1 2 3 4 5 in
  let again := Mock.at_ Mock.alice 691199 (SubmitGuess (Mock.word 5 4 3 2 1)) in
  let s1 := (transact s (mkTx env (SubmitGuess l))).1 in
  (Forall (λ tx, period_of tx ≤ 7) pre
   ∧ (7 ∉ submitted_periods Mock.alice pre (execute (initial (FHE := Mock.lib) 0) pre).2)
   ∧ day (currentAnswer s) = 7 ∧ block_timestamp env / ONE_DAY = 7)
  ∧ (transact s (mkTx env (SubmitGuess l))).2 = Success [GuessSubmitted 1 Mock.alice]
  ∧ attempts (playerStats_at s1 Mock.alice) = 1
  ∧ (execute s1 [again]).2 = [Reverted (Error "Already played today")]
  ∧ attempts (playerStats_at (execute s1 [again]).1 Mock.alice) = 1.
Proof.
  intros pre s env l again s1.
  assert (Hpast : Forall (λ tx, period_of tx ≤ 7) pre).
  { apply Forall_cons. split; [vm_compute; discriminate | apply Forall_nil_2]. }
  assert (Hfirst : 7 ∉ submitted_periods (msg_sender env) pre
                         (execute (initial (FHE := Mock.lib) 0) pre).2).
  { vm_compute. apply not_elem_of_nil. }
  assert (Hlen : N.of_nat (length pre) < MAX_UINT256) by (vm_compute; reflexivity).
  assert (Hday : day (currentAnswer s) = 7) by (vm_compute; reflexivity).
  assert (HP : (7 : N) ≠ 0) by discriminate.
  assert (Hper : block_timestamp env / ONE_DAY = 7) by (vm_compute; reflexivity).
  split; [split; [exact Hpast | split; [exact Hfirst | split; [exact Hday | exact Hper]]]|].
  destruct (one_submission_per_period (FHE := Mock.lib) 0 pre env l 7
              Hpast Hfirst Hlen Hday HP Hper) as (Hrun & Hone & Hrest).
  assert (Hin : Forall (λ tx, period_of tx = 7) [again]).
  { apply Forall_cons. split; [vm_compute; reflexivity | apply Forall_nil_2]. }
  destruct (Hrest [again] Hin) as (Hkeep & Hrs).
  fold s in Hkeep, Hrs, Hrun, Hone. fold s1 in Hkeep, Hrs, Hone.
  rewrite execute_cons in Hkeep, Hrs |- *.
  cbn [execute fst snd] in Hkeep, Hrs |- *.
  apply Forall2_cons_1 in Hrs as [Hr _].
  split; [exact Hrun|]. split; [exact Hone|]. split.
  - by rewrite (Hr eq_refl).
  - exact (eq_trans Hkeep Hone).
Defined.

(** C3 on a run: two rounds on Alice's one guess give her two wins. *)
Lemma evaluation_repeats_witness :
  let s := Mock.s_open in
  let ev := Mock.at_ Mock.alice 604950 (EvaluateGuess 1) in
  let res r := Mock.at_ 2 605000
                 (HandleEvaluationResult r Mock.enc_true Mock.good_proof) in
  let s' := (execute s [ev; res 0; ev; res 1]).1 in
  evaluable s 1 Mock.alice
  ∧ win_rounds 1 Mock.alice 2 s s'
  ∧ wins (playerStats_at s' Mock.alice) = 2
  ∧ dailyWinners_at s' 7 = [Mock.alice; Mock.alice]
  ∧ ∃ s3, win_rounds 1 Mock.alice 3 s s3.
Proof.
  intros s ev res s'.
  assert (Hev : evaluable s 1 Mock.alice).
  { repeat split; vm_compute; (discriminate || reflexivity). }
  set (s1 := (transact s ev).1).
  set (s2 := (transact s1 (res 0)).1).
  set (s3 := (transact s2 ev).1).
  assert (Hrounds : win_rounds 1 Mock.alice 2 s s').
  { apply (win_rounds_S 1 Mock.alice 1 s s1 s2 s'
             (mkEnv Mock.alice 604950) (mkEnv 2 605000) 0 Mock.enc_true Mock.good_proof);
      [reflexivity | vm_compute; reflexivity | vm_compute; reflexivity
      | vm_compute; reflexivity |].
    apply (win_rounds_S 1 Mock.alice 0 s2 s3 s' s'
             (mkEnv Mock.alice 604950) (mkEnv 2 605000) 1 Mock.enc_true Mock.good_proof);
      [reflexivity | vm_compute; reflexivity | vm_compute; reflexivity
      | vm_compute; reflexivity |].
    apply win_rounds_O. }
  destruct (evaluation_repeats (FHE := Mock.lib) s 1 Mock.alice Hev)
    as (_ & _ & Hmany & Hexist).
  destruct (Hmany 2%nat s' Hrounds) as (Hwins & Hlist & _).
  split; [exact Hev|]. split; [exact Hrounds|].
  split; [exact Hwins|]. split; [exact Hlist|].
  apply (Hexist (λ cts f, ex_intro _ (f, f + 1) eq_refl)
                (λ r f, ex_intro _ Mock.enc_true
                          (ex_intro _ Mock.good_proof
                             (ex_intro _ f (conj eq_refl eq_refl))))
                3%nat).
  vm_compute. discriminate.
Defined.

(** ** Histories: what holds along every run *)

Section Histories.
Context `{FHE : FHELib}.
Implicit Types (s : Storage) (env : Env) (log : list Event).

(** Every transaction is one of the transitions. *)
Lemma transact_step s tx : step s tx (transact s tx).1 (transact s tx).2.
Proof.
  destruct tx as [env [l|l|g|rq c p]].
  - rewrite transact_setDailyAnswer. constructor.
  - rewrite transact_submitGuess. cbn zeta.
    destruct (N.eqb_spec (day (currentAnswer s)) 0); [constructor|].
    destruct (N.eqb_spec (block_timestamp env / ONE_DAY) (day (currentAnswer s)));
      simpl; [|constructor].
    destruct (N.ltb_spec (lastPlayedDay (playerStats_at s (msg_sender env)))
                (block_timestamp env / ONE_DAY)); simpl; [|constructor].
    destruct (N.ltb_spec (guessCount s) MAX_UINT256); simpl; [|constructor].
    destruct (N.ltb_spec (attempts (playerStats_at s (msg_sender env))) MAX_UINT256);
      simpl; [|constructor].
    by constructor.
  - rewrite transact_evaluateGuess. cbn zeta.
    destruct (N.eqb_spec (day (currentAnswer s)) 0); [constructor|].
    destruct (N.eqb_spec (player (guesses_at s g)) (msg_sender env));
      simpl; [|constructor].
    destruct (N.eqb_spec (timestamp (guesses_at s g)) 0); [constructor|].
    destruct (FHE_requestDecryption _ _ _) as [[r f]|] eqn:Hreq; [|constructor].
    by constructor.
  - rewrite transact_handleEvaluationResult. cbn zeta.
    destruct (FHE_checkSignatures _ _ _ _) as [f|] eqn:Hsig; [|constructor].
    destruct (abi_bool c) as [[|]|] eqn:Hdec; [| |constructor].
    + destruct (N.ltb_spec
        (wins (playerStats_at s (player (guesses_at s (requestToGuessId_at s rq)))))
        MAX_UINT256); [|constructor].
      by constructor.
    + by constructor.
Qed.

(** *** Counting winners *)

Lemma occurrences_snoc a l w :
  occurrences a (l ++ [w]) = (occurrences a l + if N.eqb a w then 1 else 0)%nat.
Proof.
  unfold occurrences. rewrite List.filter_app, length_app. simpl.
  by destruct (a =? w).
Qed.

Lemma listed_insert_fresh a m d l :
  m !! d = None → listed a (<[d := l]> m) = (occurrences a l + listed a m)%nat.
Proof.
  intros Hd. unfold listed. rewrite map_fold_insert_L; [done| |done].
  intros. lia.
Qed.

(** Appending [w] to the list of day [d] adds one occurrence of [w]. *)
Lemma listed_push a m d w :
  listed a (<[d := default [] (m !! d) ++ [w]]> m)
    = (listed a m + if N.eqb a w then 1 else 0)%nat.
Proof.
  destruct (m !! d) as [l|] eqn:Hd; simpl.
  - rewrite <- (insert_delete_eq m).
    rewrite <- (insert_delete_id m d l Hd) at 2.
    rewrite !listed_insert_fresh by apply lookup_delete_eq.
    rewrite occurrences_snoc. lia.
  - rewrite listed_insert_fresh by done.
    change (occurrences a [w]) with (occurrences a ([] ++ [w])).
    rewrite occurrences_snoc. simpl. lia.
Qed.

(** *** The invariant *)

Lemma initial_inv f : contract_inv (initial f).
Proof.
  split; unfold initial, playerStats_at, dailyWinners_at; simpl.
  - intros id. rewrite lookup_empty. split; [by intros [??]|lia].
  - intros id g. by rewrite lookup_empty.
  - intros r g. by rewrite lookup_empty.
  - intros d w. rewrite lookup_empty. simpl. by intros ?%elem_of_nil.
  - intros a. rewrite lookup_empty. simpl. lia.
  - intros a. rewrite lookup_empty. simpl. unfold listed. by rewrite map_fold_empty.
Qed.

Lemma guesses_at_stored s id :
  timestamp (guesses_at s id) ≠ 0 → guesses s !! id = Some (guesses_at s id).
Proof.
  unfold guesses_at. by destruct (guesses s !! id).
Qed.

Lemma submit_commit_stats l env s :
  playerStats_at (submit_commit l env s) (msg_sender env)
    = mkStats (wins (playerStats_at s (msg_sender env)))
              (attempts (playerStats_at s (msg_sender env)) + 1)
              (block_timestamp env / ONE_DAY).
Proof.
  unfold playerStats_at at 1, submit_commit; simpl. by rewrite lookup_insert_eq.
Qed.

Lemma submit_commit_stats_ne l env s b :
  b ≠ msg_sender env →
  playerStats_at (submit_commit l env s) b = playerStats_at s b.
Proof.
  intros Hb. unfold playerStats_at, submit_commit; simpl.
  by rewrite lookup_insert_ne.
Qed.

Lemma step_inv s tx s1 r :
  contract_inv s → step s tx s1 r → contract_inv s1.
Proof.
  intros [Hledger Hstamped Hpending Hwinners Hplayed Hlisted] Hstep.
  destruct Hstep as [env l|env l Hday Hper Hlast Hcount Hatt|env g rq f Hev Hreq
                    |env rq c p f Hsig Hdec|env rq c p f Hsig Hdec Hw|tx e].
  - by split.
  - assert (Hstats : ∀ b, attempts (playerStats_at s b)
                          ≤ attempts (playerStats_at (submit_commit l env s) b)
                       ∧ wins (playerStats_at (submit_commit l env s) b)
                         = wins (playerStats_at s b)).
    { intros b. destruct (decide (b = msg_sender env)) as [->|Hne].
      - rewrite submit_commit_stats. simpl. split; [lia|done].
      - rewrite submit_commit_stats_ne by done. split; [lia|done]. }
    assert (Hsender : 1 ≤ attempts (playerStats_at (submit_commit l env s)
                                      (msg_sender env))).
    { rewrite submit_commit_stats. simpl. lia. }
    split.
    + intros id. unfold submit_commit; simpl.
      rewrite lookup_insert_is_Some, Hledger. split.
      * intros [<-|[_ ?]]; lia.
      * intros [Hlo Hhi].
        destruct (decide (guessCount s + 1 = id)); [by left|right].
        split; [done|lia].
    + intros id g. unfold submit_commit at 1; simpl.
      rewrite lookup_insert_Some. intros [[_ <-]|[_ Hg]]; simpl.
      * split; [by rewrite Hper|done].
      * destruct (Hstamped id g Hg) as [Hts Hone]. split; [done|].
        destruct (Hstats (player g)). lia.
    + intros rq g Hrq. unfold submit_commit; simpl.
      rewrite lookup_insert_is_Some'. right. by apply (Hpending rq).
    + intros d w Hin. destruct (Hwinners d w Hin) as [->|Hone]; [by left|right].
      destruct (Hstats w). lia.
    + intros a. destruct (Hstats a) as [Hle ->]. intros Hone.
      destruct (Hplayed a Hone) as [->|?]; [by left|right; lia].
    + intros a. destruct (Hstats a) as [_ ->]. apply Hlisted.
  - split; try done.
    intros rq' g'. unfold evaluate_commit; simpl.
    rewrite lookup_insert_Some. intros [[_ <-]|[_ Hrq]].
    + destruct Hev as (_ & Hts & _). apply guesses_at_stored in Hts. by eexists.
    + by apply (Hpending rq').
  - by split.
  - set (w := player (guesses_at s (requestToGuessId_at s rq))) in *.
    assert (Hstats : ∀ b, attempts (playerStats_at (resolve_commit rq f s) b)
                          = attempts (playerStats_at s b)
                       ∧ wins (playerStats_at (resolve_commit rq f s) b)
                         = wins (playerStats_at s b) + if b =? w then 1 else 0).
    { intros b. destruct (N.eqb_spec b w) as [->|Hne].
      - unfold w. rewrite resolve_commit_stats. simpl. done.
      - rewrite resolve_commit_stats_ne by done. split; [done|lia]. }
    assert (Hwp : w = 0 ∨ 1 ≤ attempts (playerStats_at s w)).
    { unfold w, guesses_at.
      destruct (guesses s !! requestToGuessId_at s rq) as [g|] eqn:Hg; simpl.
      - right. by apply (Hstamped (requestToGuessId_at s rq) g).
      - by left. }
    split.
    + done.
    + intros id g Hg. destruct (Hstamped id g Hg) as [Hts Hone]. split; [done|].
      destruct (Hstats (player g)) as [-> _]. done.
    + done.
    + intros d w' Hin.
      assert (Hcases : w' ∈ dailyWinners_at s d ∨ w' = w).
      { unfold dailyWinners_at, resolve_commit in Hin; simpl in Hin.
        destruct (decide (day (currentAnswer s) = d)) as [<-|Hne].
        - rewrite lookup_insert_eq in Hin. simpl in Hin.
          apply elem_of_app in Hin as [?|Hin]; [by left|right].
          by apply list_elem_of_singleton in Hin.
        - rewrite lookup_insert_ne in Hin by done. by left. }
      destruct (Hstats w') as [-> _].
      destruct Hcases as [Hold| ->]; [by apply (Hwinners d)|done].
    + intros a. destruct (Hstats a) as [-> ->]. intros Hone.
      destruct (N.eqb_spec a w) as [Heq|Hne]; [by rewrite Heq|].
      apply Hplayed. lia.
    + intros a. destruct (Hstats a) as [_ ->]. rewrite Hlisted.
      unfold resolve_commit; simpl. fold w.
      change (dailyWinners_at s (day (currentAnswer s)))
        with (default [] (dailyWinners s !! day (currentAnswer s))).
      rewrite listed_push. destruct (a =? w); lia.
  - by split.
Qed.

Lemma execute_inv txs : ∀ s,
  contract_inv s → contract_inv (execute s txs).1.
Proof.
  induction txs as [|tx txs IH]; intros s Hinv; [done|].
  rewrite execute_cons. cbn [fst]. apply IH.
  apply (step_inv s tx _ _ Hinv (transact_step s tx)).
Qed.

Lemma reachable_inv f txs : contract_inv (execute (initial f) txs).1.
Proof. apply execute_inv, initial_inv. Qed.

Lemma ledger_inv_of_inv s : contract_inv s → ledger_inv s.
Proof. intros Hinv id Hid. by apply (inv_ledger s Hinv). Qed.

Lemma execute_app s txs1 txs2 :
  execute s (txs1 ++ txs2) =
    ((execute (execute s txs1).1 txs2).1,
     (execute s txs1).2 ++ (execute (execute s txs1).1 txs2).2).
Proof.
  revert s. induction txs1 as [|tx txs1 IH]; intros s.
  - simpl. by destruct (execute s txs2).
  - rewrite <- app_comm_cons, !execute_cons. cbn [fst snd]. by rewrite IH.
Qed.

(** *** Statistics and events *)

Lemma count_events_app f l1 l2 :
  count_events f (l1 ++ l2) = count_events f l1 + count_events f l2.
Proof. unfold count_events. rewrite List.filter_app, length_app. lia. Qed.

(** What one transition adds to [a]'s counters is what its events say. *)
Lemma step_counts s tx s1 r a :
  step s tx s1 r →
  attempts (playerStats_at s1 a)
    = attempts (playerStats_at s a) + count_events (is_submission_of a) (logs_of r)
  ∧ wins (playerStats_at s1 a)
    = wins (playerStats_at s a) + count_events (is_win_of a) (logs_of r).
Proof.
  intros [env l|env l Hday Hper Hlast Hcount Hatt|env g rq f Hev Hreq
         |env rq c p f Hsig Hdec|env rq c p f Hsig Hdec Hw|tx' e];
    unfold count_events; simpl; rewrite ?N.add_0_r; try done.
  - destruct (N.eqb_spec (msg_sender env) a) as [<-|Hne]; simpl.
    + rewrite submit_commit_stats. simpl. split; lia.
    + rewrite submit_commit_stats_ne by done. split; lia.
  - destruct (N.eqb_spec (player (guesses_at s (requestToGuessId_at s rq))) a)
      as [<-|Hne]; simpl.
    + rewrite resolve_commit_stats. simpl. split; lia.
    + rewrite resolve_commit_stats_ne by done. split; lia.
Qed.

Lemma execute_counts txs : ∀ s a,
  attempts (playerStats_at (execute s txs).1 a)
    = attempts (playerStats_at s a)
      + count_events (is_submission_of a) (events_of (execute s txs).2)
  ∧ wins (playerStats_at (execute s txs).1 a)
    = wins (playerStats_at s a)
      + count_events (is_win_of a) (events_of (execute s txs).2).
Proof.
  induction txs as [|tx txs IH]; intros s a.
  - unfold count_events; simpl. split; lia.
  - rewrite execute_cons. cbn [fst snd]. unfold events_of. cbn [map concat].
    fold (events_of (execute (transact s tx).1 txs).2).
    rewrite !count_events_app.
    destruct (step_counts s tx _ _ a (transact_step s tx)) as [Ha Hw].
    destruct (IH (transact s tx).1 a) as [IHa IHw].
    split; lia.
Qed.

(** *** The answer and the play record along a run *)

Lemma transact_answer s tx :
  currentAnswer (transact s tx).1
    = match tx_call tx with
      | SetDailyAnswer l => mkAnswer l (period_of tx)
      | _ => currentAnswer s
      end.
Proof.
  destruct tx as [env [l|l|g|rq c p]]; cbn [tx_call].
  - by rewrite transact_setDailyAnswer.
  - rewrite transact_submitGuess. cbn zeta.
    repeat (match goal with |- context [if ?b then _ else _] => destruct b end;
            simpl; try done).
  - rewrite transact_evaluateGuess. cbn zeta.
    repeat (match goal with |- context [if ?b then _ else _] => destruct b end;
            simpl; try done).
    by destruct (FHE_requestDecryption _ _ _) as [[??]|].
  - rewrite transact_handleEvaluationResult. cbn zeta.
    destruct (FHE_checkSignatures _ _ _ _); [|done].
    destruct (abi_bool _) as [[|]|]; try done.
    by destruct (wins _ <? _).
Qed.

Lemma execute_answer txs : ∀ s,
  currentAnswer (execute s txs).1 = answer_after (currentAnswer s) txs.
Proof.
  induction txs as [|tx txs IH]; intros s; [done|].
  rewrite execute_cons. cbn [fst]. rewrite IH, transact_answer. done.
Qed.

(** What one transition does to [a]'s last played day. *)
Lemma step_played s tx s1 r a :
  step s tx s1 r →
  (submitted_period a tx r = [period_of tx]
   ∧ lastPlayedDay (playerStats_at s a) < period_of tx
   ∧ lastPlayedDay (playerStats_at s1 a) = period_of tx)
  ∨ (submitted_period a tx r = []
     ∧ lastPlayedDay (playerStats_at s1 a) = lastPlayedDay (playerStats_at s a)).
Proof.
  intros [env l|env l Hday Hper Hlast Hcount Hatt|env g rq f Hev Hreq
         |env rq c p f Hsig Hdec|env rq c p f Hsig Hdec Hw|tx' e];
    unfold submitted_period, is_submit_by, period_of; simpl; try by right.
  - destruct (N.eqb_spec (msg_sender env) a) as [<-|Hne].
    + left. by rewrite submit_commit_stats.
    + right. by rewrite submit_commit_stats_ne.
  - right. split; [done|].
    destruct (decide (a = player (guesses_at s (requestToGuessId_at s rq))))
      as [->|Hne].
    + by rewrite resolve_commit_stats.
    + by rewrite resolve_commit_stats_ne.
Qed.

Lemma execute_periods_sorted txs : ∀ s a,
  Forall (λ p, lastPlayedDay (playerStats_at s a) < p)
         (submitted_periods a txs (execute s txs).2)
  ∧ StronglySorted N.lt (submitted_periods a txs (execute s txs).2).
Proof.
  induction txs as [|tx txs IH]; intros s a.
  - simpl. split; constructor.
  - rewrite execute_cons. cbn [fst snd submitted_periods].
    destruct (IH (transact s tx).1 a) as [IHall IHsorted].
    destruct (step_played s tx _ _ a (transact_step s tx))
      as [(-> & Hlt & Heq)|(-> & Heq)]; simpl.
    + rewrite Heq in IHall. split.
      * constructor; [done|]. eapply Forall_impl; [exact IHall|].
        simpl. intros p Hp. lia.
      * by constructor.
    + rewrite Heq in IHall. done.
Qed.

(** *** Nothing shrinks *)

Lemma step_grows s tx s1 r :
  step s tx s1 r →
  guessCount s ≤ guessCount s1
  ∧ (∀ a, wins (playerStats_at s a) ≤ wins (playerStats_at s1 a)
          ∧ attempts (playerStats_at s a) ≤ attempts (playerStats_at s1 a)
          ∧ lastPlayedDay (playerStats_at s a) ≤ lastPlayedDay (playerStats_at s1 a))
  ∧ (∀ d, dailyWinners_at s d `prefix_of` dailyWinners_at s1 d).
Proof.
  intros [env l|env l Hday Hper Hlast Hcount Hatt|env g rq f Hev Hreq
         |env rq c p f Hsig Hdec|env rq c p f Hsig Hdec Hw|tx' e];
    try by (split; [reflexivity|split; [intros; repeat split; reflexivity|done]]).
  - split; [simpl; lia|]. split; [|done].
    intros a. destruct (decide (a = msg_sender env)) as [->|Hne].
    + rewrite submit_commit_stats. simpl. lia.
    + rewrite submit_commit_stats_ne by done. lia.
  - split; [simpl; lia|]. split.
    + intros a.
      destruct (decide (a = player (guesses_at s (requestToGuessId_at s rq))))
        as [->|Hne].
      * rewrite resolve_commit_stats. simpl. lia.
      * rewrite resolve_commit_stats_ne by done. lia.
    + intros d. unfold dailyWinners_at at 2, resolve_commit; simpl.
      destruct (decide (day (currentAnswer s) = d)) as [<-|Hne].
      * rewrite lookup_insert_eq. simpl. by apply prefix_app_r.
      * by rewrite lookup_insert_ne.
Qed.

Lemma execute_grows txs : ∀ s,
  guessCount s ≤ guessCount (execute s txs).1
  ∧ (∀ a, wins (playerStats_at s a) ≤ wins (playerStats_at (execute s txs).1 a)
          ∧ attempts (playerStats_at s a) ≤ attempts (playerStats_at (execute s txs).1 a)
          ∧ lastPlayedDay (playerStats_at s a)
            ≤ lastPlayedDay (playerStats_at (execute s txs).1 a))
  ∧ (∀ d, dailyWinners_at s d `prefix_of` dailyWinners_at (execute s txs).1 d).
Proof.
  induction txs as [|tx txs IH]; intros s.
  - simpl. split; [lia|]. split; [intros; lia|done].
  - rewrite execute_cons. cbn [fst].
    destruct (step_grows s tx _ _ (transact_step s tx)) as (Hc & Hs & Hd).
    destruct (IH (transact s tx).1) as (IHc & IHs & IHd).
    split; [lia|]. split.
    + intros a. specialize (Hs a). specialize (IHs a). lia.
    + intros d. etrans; [apply Hd|apply IHd].
Qed.

End Histories.

(** ** Further properties of the contract *)

Section MoreProperties.
Context `{FHE : FHELib}.
Implicit Types (s : Storage) (env : Env) (log : list Event).

(** X1: what [getPlayerStats] returns is what the events say. After any run
    since deployment, a player's wins are the number of
    [GuessEvaluated(_, player, true)] events and the attempts the number of
    [GuessSubmitted(_, player)] events emitted by that run. *)
Theorem stats_match_events f txs a :
  let s := (execute (initial f) txs).1 in
  let evs := events_of (execute (initial f) txs).2 in
  getPlayerStats s a
    = (count_events (is_win_of a) evs, count_events (is_submission_of a) evs).
Proof.
  cbn zeta. unfold getPlayerStats.
  destruct (execute_counts txs (initial f) a) as [-> ->].
  change (attempts (playerStats_at (initial f) a)) with 0.
  change (wins (playerStats_at (initial f) a)) with 0.
  by rewrite !N.add_0_l.
Qed.

(** X2: wins and winner lists agree. After any run since deployment, a
    player's wins counter equals the number of times the player occurs in the
    winner lists of all days together. *)
Theorem wins_match_winner_lists f txs a :
  let s := (execute (initial f) txs).1 in
  wins (playerStats_at s a) = N.of_nat (listed a (dailyWinners s)).
Proof. apply (inv_wins_listed _ (reachable_inv f txs)). Qed.

(** X3: only players win, the zero address apart. After any run since
    deployment, every address on any day's winner list, and every address
    with a positive wins counter, is the zero address or has submitted at
    least one guess. *)
Theorem winners_have_played f txs :
  let s := (execute (initial f) txs).1 in
  (∀ d w, w ∈ getDailyWinners s d → w = 0 ∨ 1 ≤ attempts (playerStats_at s w))
  ∧ (∀ a, 1 ≤ wins (playerStats_at s a) → a = 0 ∨ 1 ≤ attempts (playerStats_at s a)).
Proof.
  cbn zeta. pose proof (reachable_inv f txs) as Hinv. split.
  - apply (inv_winners _ Hinv).
  - apply (inv_wins_played _ Hinv).
Qed.

(** X4: a pending entry always points to a stored guess. After any run since
    deployment, if [requestToGuessId] maps a request id to [g], then [g] lies
    between 1 and [guessCount] and a guess with a non-zero timestamp is
    stored under it. *)
Theorem pending_requests_point_to_guesses f txs r g :
  let s := (execute (initial f) txs).1 in
  requestToGuessId s !! r = Some g →
  1 ≤ g ≤ guessCount s
  ∧ ∃ guess, guesses s !! g = Some guess ∧ timestamp guess ≠ 0.
Proof.
  cbn zeta. intros Hr. pose proof (reachable_inv f txs) as Hinv.
  pose proof (inv_pending _ Hinv r g Hr) as Hsome.
  split; [by apply (inv_ledger _ Hinv)|].
  destruct Hsome as [guess Hg]. exists guess. split; [done|].
  destruct (inv_stamped _ Hinv g guess Hg) as [Hts _].
  intros Hzero. apply Hts. by rewrite Hzero.
Qed.

(** X5: the check "Invalid guess" is dead for real senders. After any run
    since deployment, an [evaluateGuess] call by a sender other than the zero
    address never reverts with "Invalid guess", whatever the guess id: every
    stored guess carries a non-zero timestamp, and an empty slot fails the
    ownership check first. *)
Theorem invalid_guess_unreachable f txs env g :
  let s := (execute (initial f) txs).1 in
  msg_sender env ≠ 0 →
  (transact s (mkTx env (EvaluateGuess g))).2 ≠ Reverted (Error "Invalid guess").
Proof.
  cbn zeta. intros Hsender. pose proof (reachable_inv f txs) as Hinv.
  set (s := (execute (initial f) txs).1) in *.
  rewrite transact_evaluateGuess. cbn zeta.
  destruct (N.eqb_spec (day (currentAnswer s)) 0); [done|].
  destruct (N.eqb_spec (player (guesses_at s g)) (msg_sender env)) as [Hown|];
    simpl; [|done].
  destruct (N.eqb_spec (timestamp (guesses_at s g)) 0) as [Hzero|];
    [|by destruct (FHE_requestDecryption _ _ _) as [[??]|]].
  exfalso. unfold guesses_at in Hown, Hzero.
  destruct (guesses s !! g) as [guess|] eqn:Hg; simpl in Hown, Hzero.
  - destruct (inv_stamped _ Hinv g guess Hg) as [Hts _].
    apply Hts. by rewrite Hzero.
  - by apply Hsender.
Qed.

(** X6: stored guesses are final. Once a run since deployment has stored a
    guess under an id, every continuation of the run finds the same guess
    under that id: nothing overwrites or deletes a guess. *)
Theorem stored_guesses_are_final f pre post id guess :
  guesses (execute (initial f) pre).1 !! id = Some guess →
  guesses (execute (initial f) (pre ++ post)).1 !! id = Some guess.
Proof.
  intros Hg. rewrite execute_app. cbn [fst].
  pose proof (reachable_inv f pre) as Hinv.
  destruct (execute_ledger post _ (ledger_inv_of_inv _ Hinv)) as (_ & _ & _ & Hold & _).
  rewrite Hold; [done|].
  apply (inv_ledger _ Hinv). by exists guess.
Qed.

(** X7: the days of a player's successful submissions strictly increase.
    Along any run since deployment, whatever the order of timestamps, the
    periods of the successful [submitGuess] calls of one sender form a
    strictly increasing sequence of non-zero days; in particular no sender
    has two accepted guesses in one day. *)
Theorem submission_days_increase f txs a :
  let periods := submitted_periods a txs (execute (initial f) txs).2 in
  StronglySorted N.lt periods ∧ Forall (λ p, 0 < p) periods ∧ NoDup periods.
Proof.
  cbn zeta. destruct (execute_periods_sorted txs (initial f) a) as [Hpos Hsorted].
  split; [done|]. split; [done|].
  induction Hsorted as [|p l _ IH Hall]; constructor.
  - intros Hin. rewrite Forall_forall in Hall. specialize (Hall p Hin). lia.
  - apply IH. by apply Forall_cons in Hpos as [_ ?].
Qed.

(** X8: [getCurrentDay] is the day of the last publication, not of the
    clock. After any run from any state, the answer held is the one of the
    last [setDailyAnswer] of the run with the period of that call, or the
    answer held before if the run has none; no other call changes it, and
    [setDailyAnswer] never fails. *)
Theorem current_day_is_last_publication s txs :
  let s' := (execute s txs).1 in
  currentAnswer s' = answer_after (currentAnswer s) txs
  ∧ getCurrentDay s' = day (answer_after (currentAnswer s) txs).
Proof. cbn zeta. unfold getCurrentDay. by rewrite execute_answer. Qed.

(** X9: nothing shrinks. Along any run from any state, [guessCount] and every
    player's wins, attempts and last played day never decrease, and every
    day's winner list only grows at its end. *)
Theorem counters_never_decrease s txs :
  let s' := (execute s txs).1 in
  guessCount s ≤ guessCount s'
  ∧ (∀ a, wins (playerStats_at s a) ≤ wins (playerStats_at s' a)
          ∧ attempts (playerStats_at s a) ≤ attempts (playerStats_at s' a)
          ∧ lastPlayedDay (playerStats_at s a) ≤ lastPlayedDay (playerStats_at s' a))
  ∧ (∀ d, getDailyWinners s d `prefix_of` getDailyWinners s' d).
Proof. apply execute_grows. Qed.

(** X10: only the submitter gets a guess evaluated. After any run since
    deployment, if [evaluateGuess g] succeeds then [g] is the id of an
    accepted submission and the sender is the sender of that submission; and
    with an answer set, a sender who is not the player stored under [g]
    gets "Not your guess" and nothing changes. *)
Theorem evaluation_only_by_submitter f pre env g :
  let s := (execute (initial f) pre).1 in
  let acc := accepted_guesses pre (execute (initial f) pre).2 in
  (∀ s1 logs, transact s (mkTx env (EvaluateGuess g)) = (s1, Success logs) →
     ∃ n guess, g = N.of_nat (S n) ∧ acc !! n = Some guess
                ∧ player guess = msg_sender env)
  ∧ (day (currentAnswer s) ≠ 0 → player (guesses_at s g) ≠ msg_sender env →
     transact s (mkTx env (EvaluateGuess g)) = (s, Reverted (Error "Not your guess"))).
Proof.
  cbn zeta. split.
  - intros s1 logs Hrun.
    apply transact_evaluate_success_inv in Hrun as (_ & (_ & Hts & Hown) & _).
    pose proof (reachable_inv f pre) as Hinv.
    apply guesses_at_stored in Hts.
    destruct (proj1 (inv_ledger _ Hinv g)) as [Hlo Hhi]; [by eexists|].
    destruct (execute_ledger pre (initial f) (ledger_inv_of_inv _ (initial_inv f)))
      as (_ & Hcount & Hacc & _).
    cbn zeta in Hcount, Hacc.
    change (guessCount (initial f)) with 0 in Hcount, Hacc.
    rewrite Hcount in Hhi.
    assert (Hlt : (N.to_nat g - 1 < length (accepted_guesses pre
                     (execute (initial f) pre).2))%nat) by lia.
    destruct (lookup_lt_is_Some_2 _ _ Hlt) as [guess Hguess].
    exists (N.to_nat g - 1)%nat, guess. split; [lia|]. split; [done|].
    apply Hacc in Hguess.
    replace (0 + N.of_nat (S (N.to_nat g - 1))) with g in Hguess by lia.
    rewrite Hts in Hguess. by injection Hguess as <-.
  - intros Hday Hother. rewrite transact_evaluateGuess. cbn zeta.
    destruct (N.eqb_spec (day (currentAnswer (execute (initial f) pre).1)) 0);
      [done|].
    by destruct (N.eqb_spec (player (guesses_at (execute (initial f) pre).1 g))
                   (msg_sender env)).
Qed.

(** X11: an answer published during day zero counts as no answer. If
    [setDailyAnswer] runs at a timestamp below one day, the stored day is 0,
    and from the state it leaves every [submitGuess] and every
    [evaluateGuess] reverts with "Answer not set". *)
Theorem day_zero_answer_is_no_answer s env0 l :
  block_timestamp env0 < ONE_DAY →
  let s1 := (transact s (mkTx env0 (SetDailyAnswer l))).1 in
  getCurrentDay s1 = 0
  ∧ ∀ env l' g,
      transact s1 (mkTx env (SubmitGuess l')) = (s1, Reverted (Error "Answer not set"))
      ∧ transact s1 (mkTx env (EvaluateGuess g))
        = (s1, Reverted (Error "Answer not set")).
Proof.
  intros Hearly. rewrite transact_setDailyAnswer. cbn [fst]. cbn zeta.
  assert (Hzero : block_timestamp env0 / ONE_DAY = 0) by by apply N.div_small.
  unfold getCurrentDay. simpl. split; [done|].
  intros env l' g.
  rewrite transact_submitGuess, transact_evaluateGuess. cbn zeta. simpl.
  by rewrite Hzero.
Qed.

(** X12: an answer is good for its own day only. After [setDailyAnswer] at a
    timestamp of day one or later, a [submitGuess] whose timestamp falls in
    any other day reverts with "Not current day", whoever sends it. *)
Theorem stale_answer_rejects_submissions s env0 l env l' :
  ONE_DAY ≤ block_timestamp env0 →
  block_timestamp env / ONE_DAY ≠ block_timestamp env0 / ONE_DAY →
  let s1 := (transact s (mkTx env0 (SetDailyAnswer l))).1 in
  transact s1 (mkTx env (SubmitGuess l')) = (s1, Reverted (Error "Not current day")).
Proof.
  intros Hlate Hother. rewrite transact_setDailyAnswer. cbn [fst]. cbn zeta.
  rewrite transact_submitGuess. cbn zeta. simpl.
  assert (Hpos : block_timestamp env0 / ONE_DAY ≠ 0).
  { intros Hz. apply N.div_small_iff in Hz; [lia|done]. }
  destruct (N.eqb_spec (block_timestamp env0 / ONE_DAY) 0); [done|].
  by destruct (N.eqb_spec (block_timestamp env / ONE_DAY)
                 (block_timestamp env0 / ONE_DAY)).
Qed.

(** X13: a new day's answer re-opens submission. If a player last played on
    a day before the one of a fresh [setDailyAnswer], a [submitGuess] by this
    player at a timestamp of that same day succeeds (counters below the
    maximum): one event, attempts plus one, last played day the new day. *)
Theorem new_day_reopens_submission s env0 l env l' :
  lastPlayedDay (playerStats_at s (msg_sender env)) < block_timestamp env0 / ONE_DAY →
  block_timestamp env / ONE_DAY = block_timestamp env0 / ONE_DAY →
  guessCount s < MAX_UINT256 →
  attempts (playerStats_at s (msg_sender env)) < MAX_UINT256 →
  let s1 := (transact s (mkTx env0 (SetDailyAnswer l))).1 in
  let s2 := (transact s1 (mkTx env (SubmitGuess l'))).1 in
  (transact s1 (mkTx env (SubmitGuess l'))).2
    = Success [GuessSubmitted (guessCount s + 1) (msg_sender env)]
  ∧ attempts (playerStats_at s2 (msg_sender env))
    = attempts (playerStats_at s (msg_sender env)) + 1
  ∧ lastPlayedDay (playerStats_at s2 (msg_sender env)) = block_timestamp env0 / ONE_DAY.
Proof.
  intros Hlast Hsame Hcount Hatt. rewrite transact_setDailyAnswer. cbn [fst]. cbn zeta.
  rewrite transact_submitGuess. cbn zeta. simpl.
  change (playerStats_at (set_currentAnswer _ s)) with (playerStats_at s).
  destruct (N.eqb_spec (block_timestamp env0 / ONE_DAY) 0) as [Hz|_]; [lia|].
  rewrite Hsame, N.eqb_refl. simpl.
  apply N.ltb_lt in Hlast as ->. apply N.ltb_lt in Hcount as ->.
  apply N.ltb_lt in Hatt as ->. simpl.
  rewrite submit_commit_stats. simpl.
  change (playerStats_at (set_currentAnswer _ s)) with (playerStats_at s).
  by rewrite Hsame.
Qed.

(** X14: a [false] result credits nothing. A resolution whose attestation
    verifies and whose payload decodes to [false] succeeds, emits
    [GuessEvaluated(guessId, player, false)] and leaves the statistics, the
    winner lists, the guesses, the counter, the answer and the pending
    entries as they were. *)
Theorem false_resolution_credits_nothing s env r c p f :
  FHE_checkSignatures r c p (fhe s) = Some f →
  abi_bool c = Some false →
  let s' := (transact s (mkTx env (HandleEvaluationResult r c p))).1 in
  (transact s (mkTx env (HandleEvaluationResult r c p))).2
    = Success [GuessEvaluated (requestToGuessId_at s r)
                 (player (guesses_at s (requestToGuessId_at s r))) false]
  ∧ playerStats s' = playerStats s ∧ dailyWinners s' = dailyWinners s
  ∧ guesses s' = guesses s ∧ guessCount s' = guessCount s
  ∧ currentAnswer s' = currentAnswer s
  ∧ requestToGuessId s' = requestToGuessId s.
Proof.
  intros Hsig Hdec. cbn zeta. rewrite transact_handleEvaluationResult. cbn zeta.
  by rewrite Hsig, Hdec.
Qed.

(** X15: a payload that is not one ABI-encoded boolean changes nothing. If
    the cleartexts are shorter than 32 bytes (the empty payload included) or
    their first word is neither 0 nor 1, the resolution reverts, in the
    library or at [abi.decode], even when the attestation verifies, and the
    storage is what it was. *)
Theorem undecodable_payload_reverts s env r c p :
  (length c < 32)%nat ∨ 1 < word_of_bytes (take 32 c) →
  ∃ e, transact s (mkTx env (HandleEvaluationResult r c p)) = (s, Reverted e)
       ∧ (e = LibraryRevert ∨ e = DecodeError).
Proof.
  intros Hbad.
  assert (Hnone : abi_bool c = None).
  { unfold abi_bool. destruct Hbad as [Hshort|Hbig].
    - by apply Nat.ltb_lt in Hshort as ->.
    - destruct (length c <? 32)%nat; [done|].
      destruct (word_of_bytes (take 32 c)) as [|[]]; (done || lia). }
  rewrite transact_handleEvaluationResult. cbn zeta. rewrite Hnone.
  destruct (FHE_checkSignatures _ _ _ _); eauto.
Qed.


(** X17: a win is listed under the day of the answer held at resolution.
    When a new answer has been published before the oracle resolves a
    request, a [true] resolution appends the guess's player to the winner
    list of the new answer's day and leaves every other day's list alone,
    whatever day the guess was submitted on. *)
Theorem win_listed_under_current_day s env0 l env r c p f :
  FHE_checkSignatures r c p (fhe s) = Some f →
  abi_bool c = Some true →
  let w := player (guesses_at s (requestToGuessId_at s r)) in
  wins (playerStats_at s w) < MAX_UINT256 →
  let d := block_timestamp env0 / ONE_DAY in
  let s1 := (transact s (mkTx env0 (SetDailyAnswer l))).1 in
  let s2 := (transact s1 (mkTx env (HandleEvaluationResult r c p))).1 in
  (transact s1 (mkTx env (HandleEvaluationResult r c p))).2
    = Success [GuessEvaluated (requestToGuessId_at s r) w true]
  ∧ getDailyWinners s2 d = getDailyWinners s d ++ [w]
  ∧ ∀ d', d' ≠ d → getDailyWinners s2 d' = getDailyWinners s d'.
Proof.
  intros Hsig Hdec w Hw d. rewrite transact_setDailyAnswer. cbn [fst]. cbn zeta.
  set (s1 := set_currentAnswer (mkAnswer l (block_timestamp env0 / ONE_DAY)) s).
  rewrite (transact_resolve_true s1 env r c p f Hsig Hdec); [|done].
  cbn [fst snd]. split; [done|]. split.
  - apply (resolve_commit_winners r f s1).
  - intros d' Hd'. unfold getDailyWinners, dailyWinners_at, resolve_commit; simpl.
    by rewrite lookup_insert_ne.
Qed.

(** X18: a guess is compared with the answer held when it is evaluated.
    [evaluateGuess] has no check on the day of the guess: after a new answer
    has been published (at day one or later), the player of a stored guess
    can have it evaluated, and the flag sent for decryption compares the
    letters of the guess with the letters of the new answer. *)
Theorem evaluation_uses_current_answer s env0 l env g :
  ONE_DAY ≤ block_timestamp env0 →
  player (guesses_at s g) = msg_sender env →
  timestamp (guesses_at s g) ≠ 0 →
  let s1 := (transact s (mkTx env0 (SetDailyAnswer l))).1 in
  transact s1 (mkTx env (EvaluateGuess g)) =
    match FHE_requestDecryption
            [FHE_toBytes32 (full_match (guess_letters (guesses_at s g)) l)]
            sel_handleEvaluationResult (fhe s) with
    | Some (reqId, f) => (evaluate_commit g reqId f s1, Success [])
    | None => (s1, Reverted LibraryRevert)
    end.
Proof.
  intros Hlate Hown Hts. rewrite transact_setDailyAnswer. cbn [fst]. cbn zeta.
  rewrite transact_evaluateGuess. cbn zeta. simpl.
  change (guesses_at (set_currentAnswer _ s)) with (guesses_at s).
  assert (Hpos : block_timestamp env0 / ONE_DAY ≠ 0).
  { intros Hz. apply N.div_small_iff in Hz; [lia|done]. }
  destruct (N.eqb_spec (block_timestamp env0 / ONE_DAY) 0); [done|].
  rewrite Hown, N.eqb_refl. simpl.
  destruct (N.eqb_spec (timestamp (guesses_at s g)) 0); [done|].
  by destruct (FHE_requestDecryption _ _ _) as [[??]|].
Qed.

End MoreProperties.

(** ** Properties of the web client *)

Module ClientProperties.
Import Client.

Local Open Scope Z_scope.

Section Sorting.
Context {A : Type} (key : A → Z).

Lemma insert_desc_perm x l : insert_desc key x l ≡ₚ x :: l.
Proof.
  induction l as [|y l IH]; simpl; [done|].
  destruct (key x <? key y); [|done].
  by rewrite IH, Permutation_swap.
Qed.

Lemma sort_desc_perm l : sort_desc key l ≡ₚ l.
Proof.
  induction l as [|x l IH]; simpl; [done|].
  by rewrite insert_desc_perm, IH.
Qed.

Lemma insert_desc_sorted x l :
  StronglySorted (desc key) l → StronglySorted (desc key) (insert_desc key x l).
Proof.
  induction 1 as [|y l Hsorted IH Hall]; simpl.
  - by repeat constructor.
  - destruct (Z.ltb_spec (key x) (key y)).
    + constructor; [done|]. rewrite insert_desc_perm.
      constructor; [unfold desc; lia|done].
    + constructor; [by constructor|]. constructor; [done|].
      eapply Forall_impl; [exact Hall|]. unfold desc. intros z Hz. lia.
Qed.

Lemma sort_desc_sorted l : StronglySorted (desc key) (sort_desc key l).
Proof.
  induction l as [|x l IH]; simpl; [constructor|].
  by apply insert_desc_sorted.
Qed.

(** Equal keys keep their order: the sort is stable. *)
Lemma insert_desc_stable k x l :
  List.filter (λ e, key e =? k) (insert_desc key x l)
    = List.filter (λ e, key e =? k) (x :: l).
Proof.
  induction l as [|y l IH]; [done|]. simpl in *.
  destruct (Z.ltb_spec (key x) (key y)); [|done].
  simpl. rewrite IH.
  destruct (Z.eqb_spec (key x) k), (Z.eqb_spec (key y) k); (done || lia).
Qed.

Lemma sort_desc_stable k l :
  List.filter (λ e, key e =? k) (sort_desc key l) = List.filter (λ e, key e =? k) l.
Proof.
  induction l as [|x l IH]; [done|].
  cbn [sort_desc foldr]. fold (sort_desc key l).
  rewrite insert_desc_stable. simpl. by rewrite IH.
Qed.

End Sorting.

Section WithLowerCase.
Variable toLowerCase : string → string.




(** X19: what [loadRecords] shows. The list holds only records whose player
    is the account (case aside), every such record that could be loaded and
    parsed, each as often as it was loaded, and it is ordered by timestamp,
    newest first, records of equal timestamp in key order. *)
Theorem loadRecords_own_newest_first account loaded :
  let records := loadRecords toLowerCase account loaded in
  Forall (λ r, toLowerCase (rec_player r) = toLowerCase account) records
  ∧ StronglySorted (desc rec_timestamp) records
  ∧ records ≡ₚ collect_records toLowerCase account loaded
  ∧ (∀ t, List.filter (λ r, rec_timestamp r =? t) records
          = List.filter (λ r, rec_timestamp r =? t)
              (collect_records toLowerCase account loaded))
  ∧ (∀ key d, (key, Some d) ∈ loaded →
       toLowerCase (data_player d) = toLowerCase account →
       mkRecord key (data_guess d) (data_timestamp d) (data_player d)
                (data_day d) (data_isCorrect d) ∈ records).
Proof.
  cbn zeta. unfold loadRecords.
  split; [|split; [apply sort_desc_sorted|split; [apply sort_desc_perm|split]]].
  - rewrite sort_desc_perm. apply Forall_forall. intros r Hr.
    apply list_elem_of_omap in Hr as ([key [d|]] & _ & Hown); simpl in Hown; [|done].
    unfold own_record in Hown. case_decide; [|done]. by injection Hown as <-.
  - intros t. apply sort_desc_stable.
  - intros key d Hin Hmine. rewrite sort_desc_perm.
    apply list_elem_of_omap. exists (key, Some d). split; [done|]. simpl.
    unfold own_record. by case_decide.
Qed.

(** X20: what the statistics say. On the loaded records the wins are at most
    the games, the streak is at most the wins (it is 0 or 1), and a streak of
    1 means that a won game carries the newest timestamp of all. *)
Theorem streak_reflects_newest_game account loaded :
  let records := loadRecords toLowerCase account loaded in
  (wins records ≤ length records)%nat
  ∧ (currentStreak records ≤ wins records)%nat
  ∧ (currentStreak records ≤ 1)%nat
  ∧ (currentStreak records = 1%nat →
     ∃ r, r ∈ records ∧ isCorrect r = true
          ∧ ∀ r', r' ∈ records → rec_timestamp r' ≤ rec_timestamp r).
Proof.
  cbn zeta.
  pose proof (sort_desc_sorted rec_timestamp (collect_records toLowerCase account loaded))
    as Hsorted.
  fold (loadRecords toLowerCase account loaded) in Hsorted.
  destruct (loadRecords toLowerCase account loaded) as [|r records]; simpl.
  - repeat split; (lia || done).
  - unfold wins. simpl. split.
    { pose proof (List.filter_length_le isCorrect records).
      destruct (isCorrect r); simpl; lia. }
    destruct (isCorrect r) eqn:Hr; simpl; (split; [lia|split; [lia|]]); [|done].
    intros _. exists r. split; [by left|]. split; [done|].
    apply StronglySorted_inv in Hsorted as [_ Hall].
    intros r' [->|Hin]%elem_of_cons; [lia|].
    rewrite Forall_forall in Hall. apply (Hall r' Hin).
Qed.




End WithLowerCase.

End ClientProperties.

(** ** The further properties on concrete runs *)

(** X3 on a run: after the winning scenario Alice is on the list of day 7
    and has one attempt. *)
Lemma winners_have_played_witness :
  let s := (execute (initial (FHE := Mock.lib) 0) Mock.scenario_true).1 in
  Mock.alice ∈ getDailyWinners s 7
  ∧ (Mock.alice = 0 ∨ 1 ≤ attempts (playerStats_at s Mock.alice)).
Proof.
  intros s.
  assert (Hin : Mock.alice ∈ getDailyWinners s 7) by (vm_compute; by left).
  split; [exact Hin|].
  exact (proj1 (winners_have_played (FHE := Mock.lib) 0 Mock.scenario_true)
           7 Mock.alice Hin).
Defined.

(** X4 on a run: request 0 is pending for guess 1. *)
Lemma pending_requests_point_to_guesses_witness :
  let s := Mock.s_pending in
  requestToGuessId s !! 0 = Some 1
  ∧ 1 ≤ 1 ≤ guessCount s
  ∧ ∃ guess, guesses s !! 1 = Some guess ∧ timestamp guess ≠ 0.
Proof.
  intros s.
  assert (Hr : requestToGuessId s !! 0 = Some 1) by (vm_compute; reflexivity).
  split; [exact Hr|].
  exact (pending_requests_point_to_guesses (FHE := Mock.lib) 0
           (take 3 Mock.scenario_true) 0 1 Hr).
Defined.

(** X5 on a run: Bob asks for guess 1 and for guess 9. *)
Lemma invalid_guess_unreachable_witness :
  let s := Mock.s_open in
  Mock.bob ≠ 0
  ∧ (transact s (Mock.at_ Mock.bob 604950 (EvaluateGuess 9))).2
    ≠ Reverted (Error "Invalid guess").
Proof.
  intros s.
  assert (Hbob : msg_sender (mkEnv Mock.bob 604950) ≠ 0) by discriminate.
  split; [exact Hbob|].
  exact (invalid_guess_unreachable (FHE := Mock.lib) 0 (take 2 Mock.scenario_true)
           (mkEnv Mock.bob 604950) 9 Hbob).
Defined.

(** X6 on a run: Alice's guess 1 is still there after the rest of the
    scenario. *)
Lemma stored_guesses_are_final_witness :
  let guess := mkGuess (FHE := Mock.lib) (Mock.word 1 2 3 4 5) 604900 Mock.alice in
  guesses Mock.s_open !! 1 = Some guess
  ∧ guesses (execute (initial (FHE := Mock.lib) 0)
               (take 2 Mock.scenario_true ++ drop 2 Mock.scenario_true)).1 !! 1
    = Some guess.
Proof.
  intros guess.
  assert (Hg : guesses (execute (initial (FHE := Mock.lib) 0)
                          (take 2 Mock.scenario_true)).1 !! 1 = Some guess)
    by (vm_compute; reflexivity).
  split; [exact Hg|].
  exact (stored_guesses_are_final (FHE := Mock.lib) 0 (take 2 Mock.scenario_true)
           (drop 2 Mock.scenario_true) 1 guess Hg).
Defined.

(** X10 on a run: Alice's evaluation of guess 1 succeeds, Bob's is refused. *)
Lemma evaluation_only_by_submitter_witness :
  let s := Mock.s_open in
  let pre := take 2 Mock.scenario_true in
  transact s (Mock.at_ Mock.alice 604950 (EvaluateGuess 1)) = (Mock.s_pending, Success [])
  ∧ (∃ n guess, 1 = N.of_nat (S n)
       ∧ accepted_guesses pre (execute (initial (FHE := Mock.lib) 0) pre).2 !! n
         = Some guess
       ∧ player guess = Mock.alice)
  ∧ transact s (Mock.at_ Mock.bob 604950 (EvaluateGuess 1))
    = (s, Reverted (Error "Not your guess")).
Proof.
  intros s pre.
  assert (Hrun : transact s (Mock.at_ Mock.alice 604950 (EvaluateGuess 1))
                 = (Mock.s_pending, Success [])) by (vm_compute; reflexivity).
  assert (Hday : day (currentAnswer s) ≠ 0) by (vm_compute; discriminate).
  assert (Hother : player (guesses_at s 1) ≠ Mock.bob) by (vm_compute; discriminate).
  split; [exact Hrun|]. split.
  - exact (proj1 (evaluation_only_by_submitter (FHE := Mock.lib) 0 pre
                    (mkEnv Mock.alice 604950) 1) Mock.s_pending [] Hrun).
  - exact (proj2 (evaluation_only_by_submitter (FHE := Mock.lib) 0 pre
                    (mkEnv Mock.bob 604950) 1) Hday Hother).
Defined.

(** X11 on a run: an answer published in the first hour of the epoch. *)
Lemma day_zero_answer_is_no_answer_witness :
  let s1 := (transact (initial (FHE := Mock.lib) 0)
               (Mock.at_ 1 3600 (SetDailyAnswer (Mock.word 1 2 3 4 5)))).1 in
  3600 < ONE_DAY
  ∧ getCurrentDay s1 = 0
  ∧ transact s1 (Mock.at_ Mock.alice 3700 (SubmitGuess (Mock.word 1 2 3 4 5)))
    = (s1, Reverted (Error "Answer not set")).
Proof.
  intros s1.
  assert (Hearly : block_timestamp (mkEnv 1 3600) < ONE_DAY) by reflexivity.
  destruct (day_zero_answer_is_no_answer (FHE := Mock.lib) (initial (FHE := Mock.lib) 0) (mkEnv 1 3600)
              (Mock.word 1 2 3 4 5) Hearly) as [Hzero Hall].
  split; [exact Hearly|]. split; [exact Hzero|].
  exact (proj1 (Hall (mkEnv Mock.alice 3700) (Mock.word 1 2 3 4 5) 0)).
Defined.

(** X12 on a run: the answer of day 7, a submission on day 8. *)
Lemma stale_answer_rejects_submissions_witness :
  let s1 := (transact (initial (FHE := Mock.lib) 0)
               (Mock.at_ 1 604800 (SetDailyAnswer (Mock.word 1 2 3 4 5)))).1 in
  (ONE_DAY ≤ 604800 ∧ 691200 / ONE_DAY ≠ 604800 / ONE_DAY)
  ∧ transact s1 (Mock.at_ Mock.alice 691200 (SubmitGuess (Mock.word 1 2 3 4 5)))
    = (s1, Reverted (Error "Not current day")).
Proof.
  intros s1.
  assert (Hlate : ONE_DAY ≤ block_timestamp (mkEnv 1 604800))
    by (vm_compute; discriminate).
  assert (Hother : block_timestamp (mkEnv Mock.alice 691200) / ONE_DAY
                   ≠ block_timestamp (mkEnv 1 604800) / ONE_DAY)
    by (vm_compute; discriminate).
  split; [split; [exact Hlate | exact Hother]|].
  exact (stale_answer_rejects_submissions (FHE := Mock.lib) (initial (FHE := Mock.lib) 0)
           (mkEnv 1 604800) (Mock.word 1 2 3 4 5) (mkEnv Mock.alice 691200)
           (Mock.word 1 2 3 4 5) Hlate Hother).
Defined.

(** X13 on a run: Alice played day 7; the answer of day 8 lets her play
    again. *)
Lemma new_day_reopens_submission_witness :
  let s := Mock.s_open in
  let env0 := mkEnv 1 691200 in
  let env := mkEnv Mock.alice 691300 in
  let s1 := (transact s (mkTx env0 (SetDailyAnswer (Mock.word 5 4 3 2 1)))).1 in
  (lastPlayedDay (playerStats_at s Mock.alice) < 691200 / ONE_DAY
   ∧ 691300 / ONE_DAY = 691200 / ONE_DAY)
  ∧ (transact s1 (mkTx env (SubmitGuess (Mock.word 5 4 3 2 1)))).2
    = Success [GuessSubmitted 2 Mock.alice].
Proof.
  intros s env0 env s1.
  assert (Hlast : lastPlayedDay (playerStats_at s (msg_sender env))
                  < block_timestamp env0 / ONE_DAY) by (vm_compute; reflexivity).
  assert (Hsame : block_timestamp env / ONE_DAY = block_timestamp env0 / ONE_DAY)
    by (vm_compute; reflexivity).
  assert (Hcount : guessCount s < MAX_UINT256) by (vm_compute; reflexivity).
  assert (Hatt : attempts (playerStats_at s (msg_sender env)) < MAX_UINT256)
    by (vm_compute; reflexivity).
  split; [split; [exact Hlast | exact Hsame]|].
  exact (proj1 (new_day_reopens_submission (FHE := Mock.lib) s env0
                  (Mock.word 5 4 3 2 1) env (Mock.word 5 4 3 2 1)
                  Hlast Hsame Hcount Hatt)).
Defined.

(** X14 on a run: request 0 resolved with [false]. *)
Lemma false_resolution_credits_nothing_witness :
  let s := Mock.s_pending in
  let tx := Mock.at_ 2 605000 (HandleEvaluationResult 0 Mock.enc_false Mock.good_proof) in
  abi_bool Mock.enc_false = Some false
  ∧ (transact s tx).2 = Success [GuessEvaluated 1 Mock.alice false]
  ∧ playerStats (transact s tx).1 = playerStats s
  ∧ dailyWinners (transact s tx).1 = dailyWinners s.
Proof.
  intros s tx.
  assert (Hsig : FHE_checkSignatures (FHELib := Mock.lib) 0 Mock.enc_false
                   Mock.good_proof (fhe s) = Some 1) by reflexivity.
  assert (Hdec : abi_bool Mock.enc_false = Some false) by reflexivity.
  destruct (false_resolution_credits_nothing (FHE := Mock.lib) s (mkEnv 2 605000)
              0 Mock.enc_false Mock.good_proof 1 Hsig Hdec)
    as (Hrun & Hstats & Hwinners & _).
  split; [exact Hdec|]. split; [exact Hrun|]. split; [exact Hstats | exact Hwinners].
Defined.

(** X15 on a run: request 0 resolved with an empty payload. *)
Lemma undecodable_payload_reverts_witness :
  let s := Mock.s_pending in
  (length ([] : list byte) < 32)%nat
  ∧ ∃ e, transact s (Mock.at_ 2 605000 (HandleEvaluationResult 0 [] Mock.good_proof))
         = (s, Reverted e)
         ∧ (e = LibraryRevert ∨ e = DecodeError).
Proof.
  intros s.
  assert (Hshort : (length ([] : list byte) < 32)%nat) by (simpl; lia).
  split; [exact Hshort|].
  exact (undecodable_payload_reverts (FHE := Mock.lib) s (mkEnv 2 605000) 0 []
           Mock.good_proof (or_introl Hshort)).
Defined.


(** X17 on a run: Alice's guess of day 7 is resolved after the answer of
    day 8 was published. *)
Lemma win_listed_under_current_day_witness :
  let s := Mock.s_pending in
  let env0 := mkEnv 1 691200 in
  let s1 := (transact s (mkTx env0 (SetDailyAnswer (Mock.word 5 4 3 2 1)))).1 in
  let s2 := (transact s1 Mock.resolve_true_0).1 in
  abi_bool Mock.enc_true = Some true
  ∧ getDailyWinners s2 8 = [Mock.alice]
  ∧ getDailyWinners s2 7 = [].
Proof.
  intros s env0 s1 s2.
  assert (Hsig : FHE_checkSignatures (FHELib := Mock.lib) 0 Mock.enc_true
                   Mock.good_proof (fhe s) = Some 1) by reflexivity.
  assert (Hdec : abi_bool Mock.enc_true = Some true) by reflexivity.
  assert (Hw : wins (playerStats_at s
                 (player (guesses_at s (requestToGuessId_at s 0)))) < MAX_UINT256)
    by (vm_compute; reflexivity).
  destruct (win_listed_under_current_day (FHE := Mock.lib) s env0
              (Mock.word 5 4 3 2 1) (mkEnv 2 605000) 0 Mock.enc_true Mock.good_proof 1
              Hsig Hdec Hw) as (_ & Hnew & Hold).
  split; [exact Hdec|]. split; [exact Hnew|].
  apply (Hold 7). vm_compute. discriminate.
Defined.

(** X18 on a run: Alice's guess 1 2 3 4 5 of day 7 is evaluated against the
    answer 5 4 3 2 1 of day 8. *)
Lemma evaluation_uses_current_answer_witness :
  let s := Mock.s_open in
  let env0 := mkEnv 1 691200 in
  let env := mkEnv Mock.alice 691300 in
  let s1 := (transact s (mkTx env0 (SetDailyAnswer (Mock.word 5 4 3 2 1)))).1 in
  (ONE_DAY ≤ 691200 ∧ player (guesses_at s 1) = Mock.alice)
  ∧ transact s1 (mkTx env (EvaluateGuess 1))
    = (evaluate_commit (FHE := Mock.lib) 1 0 1 s1, Success [])
  ∧ full_match (FHE := Mock.lib) (guess_letters (guesses_at s 1)) (Mock.word 5 4 3 2 1)
    = false.
Proof.
  intros s env0 env s1.
  assert (Hlate : ONE_DAY ≤ block_timestamp env0) by (vm_compute; discriminate).
  assert (Hown : player (guesses_at s 1) = msg_sender env) by (vm_compute; reflexivity).
  assert (Hts : timestamp (guesses_at s 1) ≠ 0) by (vm_compute; discriminate).
  split; [split; [exact Hlate | exact Hown]|]. split.
  - exact (evaluation_uses_current_answer (FHE := Mock.lib) s env0
             (Mock.word 5 4 3 2 1) env 1 Hlate Hown Hts).
  - vm_compute. reflexivity.
Defined.

(** X19 and X20 on a run: three keys, one that does not load and one of
    another player; the account's newer game was won. *)
Lemma loadRecords_own_newest_first_witness :
  let same := λ x : string, x in
  let won := Client.mkData "FHE-QUJDREU=" 1700000500 "0xab" 19675 true in
  let lost := Client.mkData "FHE-RkdISUo=" 1700000100 "0xab" 19675 false in
  let other := Client.mkData "FHE-S0xNTk8=" 1700000900 "0xcd" 19675 true in
  let loaded := [("k1", Some lost); ("k2", None); ("k3", Some other); ("k4", Some won)] in
  ("k4", Some won) ∈ loaded
  ∧ Client.mkRecord "k4" "FHE-QUJDREU=" 1700000500 "0xab" 19675 true
    ∈ Client.loadRecords same "0xab" loaded.
Proof.
  intros same won lost other loaded.
  assert (Hin : ("k4", Some won) ∈ loaded) by (do 3 right; left).
  split; [exact Hin|].
  destruct (ClientProperties.loadRecords_own_newest_first same "0xab" loaded)
    as (_ & _ & _ & _ & Hkept).
  exact (Hkept "k4" won Hin eq_refl).
Defined.

Lemma streak_reflects_newest_game_witness :
  let same := λ x : string, x in
  let won := Client.mkData "FHE-QUJDREU=" 1700000500 "0xab" 19675 true in
  let lost := Client.mkData "FHE-RkdISUo=" 1700000100 "0xab" 19675 false in
  let loaded := [("k1", Some lost); ("k4", Some won)] in
  let records := Client.loadRecords same "0xab" loaded in
  Client.currentStreak records = 1%nat
  ∧ ∃ r, r ∈ records ∧ Client.isCorrect r = true
         ∧ ∀ r', r' ∈ records → (Client.rec_timestamp r' ≤ Client.rec_timestamp r)%Z.
Proof.
  intros same won lost loaded records.
  assert (Hstreak : Client.currentStreak records = 1%nat) by reflexivity.
  split; [exact Hstreak|].
  destruct (ClientProperties.streak_reflects_newest_game same "0xab" loaded)
    as (_ & _ & _ & Hnewest).
  exact (Hnewest Hstreak).
Defined.

(** The leaderboard update on a small board: the player's entry goes from 2
    to 3 and stays between the two entries of score 3 it was between. *)
Example update_leaderboard_runs :
  Client.update_leaderboard (λ x, x) "0xab"
    [Client.mkEntry "0xcd" 3; Client.mkEntry "0xab" 2; Client.mkEntry "0xef" 3;
     Client.mkEntry "0x12" 5]
  = [Client.mkEntry "0x12" 5; Client.mkEntry "0xcd" 3; Client.mkEntry "0xab" 3;
     Client.mkEntry "0xef" 3].
Proof. reflexivity. Qed.

Example update_leaderboard_new_player :
  Client.update_leaderboard (λ x, x) "0xab" [Client.mkEntry "0xcd" 3]
  = [Client.mkEntry "0xcd" 3; Client.mkEntry "0xab" 1].
Proof. reflexivity. Qed.
